(** * Policy routing manager of spiderpool: pkg/networking/networking/route.go

    A shallow embedding of the route and rule helpers of [route.go] and the
    properties its specification states about them.

    The helpers talk to the kernel through [netlink] and to the Go standard
    library through [net] and [os].  The [net] functions the code calls are
    modelled concretely in [Module net]; the kernel is an interface
    ([Netlink]) the programs are generic in, so every statement holds for
    whatever the kernel answers.  Every mutating kernel call is recorded in
    a trace, which is what "the function submits ..." refers to.  The
    logger only reports; it is left out. *)

From Stdlib Require Import List String Ascii ZArith NArith Bool Lia.
From Stdlib.Strings Require Import Byte.
Import ListNotations.
Open Scope string_scope.
Open Scope Z_scope.

Set Implicit Arguments.

(* ================================================================== *)
(** * The part of Go's [net] package that [route.go] uses *)

Module net.

(** [net.IP] and [net.IPMask] are byte slices; a nil slice is [None]. *)
Definition IP := option (list byte).
Definition IPMask := option (list byte).

Definition len (ip : option (list byte)) : nat :=
  match ip with
  | None => 0%nat
  | Some bs => List.length bs
  end.

Definition IPv4len : nat := 4.
Definition IPv6len : nat := 16.

Definition bytes_eqb (a b : list byte) : bool :=
  if list_eq_dec Byte.byte_eq_dec a b then true else false.

Definition isZeros (p : list byte) : bool :=
  forallb (fun b => Byte.eqb b x00) p.

Definition v4InV6Prefix : list byte :=
  [x00; x00; x00; x00; x00; x00; x00; x00; x00; x00; xff; xff].

(** [net.IPv4(a, b, c, d)]: the 16-byte form. *)
Definition IPv4 (a b c d : byte) : IP := Some (v4InV6Prefix ++ [a; b; c; d])%list.

Definition IPv4zero : IP := IPv4 x00 x00 x00 x00.

(** [func (ip IP) To4() IP] *)
Definition To4 (ip : IP) : IP :=
  match ip with
  | None => None
  | Some bs =>
      if Nat.eqb (List.length bs) IPv4len then Some bs
      else if Nat.eqb (List.length bs) IPv6len
              && isZeros (firstn 10 bs)
              && Byte.eqb (nth 10 bs x00) xff
              && Byte.eqb (nth 11 bs x00) xff
           then Some (skipn 12 bs)
           else None
  end.

(** [func (ip IP) Equal(x IP) bool] *)
Definition Equal (ip x : IP) : bool :=
  let a := match ip with Some bs => bs | None => [] end in
  let b := match x with Some bs => bs | None => [] end in
  if Nat.eqb (List.length a) (List.length b) then bytes_eqb a b
  else if Nat.eqb (List.length a) IPv4len && Nat.eqb (List.length b) IPv6len
       then bytes_eqb (firstn 12 b) v4InV6Prefix && bytes_eqb a (skipn 12 b)
  else if Nat.eqb (List.length a) IPv6len && Nat.eqb (List.length b) IPv4len
       then bytes_eqb (firstn 12 a) v4InV6Prefix && bytes_eqb (skipn 12 a) b
  else false.

(** ** Text forms *)

Definition hexdigit (n : N) : ascii :=
  nth (N.to_nat n)
      ["0"; "1"; "2"; "3"; "4"; "5"; "6"; "7"; "8"; "9";
       "a"; "b"; "c"; "d"; "e"; "f"]%char "?"%char.

(** Digits of [n] in base [base], most significant first, no leading
    zeros; the empty string for 0. *)
Fixpoint digits (fuel : nat) (base n : N) : string :=
  match fuel with
  | O => ""
  | S f =>
      if N.eqb n 0 then ""
      else digits f base (n / base) ++ String (hexdigit (n mod base)) ""
  end.

Definition numeral (base n : N) : string :=
  if N.eqb n 0 then "0" else digits 64 base n.

(** [uitoa] *)
Definition uitoa (n : N) : string := numeral 10 n.

(** [appendHex] on one 16-bit group. *)
Definition hexGroup (n : N) : string := numeral 16 n.

(** [hexString]: two lower-case digits per byte. *)
Definition hexByte (b : byte) : string :=
  let n := Byte.to_N b in
  String (hexdigit (n / 16)) (String (hexdigit (n mod 16)) "").

Definition hexString (bs : list byte) : string :=
  String.concat "" (map hexByte bs).

Fixpoint groups (bs : list byte) : list N :=
  match bs with
  | hi :: lo :: rest => (Byte.to_N hi * 256 + Byte.to_N lo)%N :: groups rest
  | _ => []
  end.

Fixpoint zeroRun (gs : list N) : nat :=
  match gs with
  | g :: rest => if N.eqb g 0 then S (zeroRun rest) else O
  | [] => O
  end.

(** First longest run of zero groups, as (start, length). *)
Fixpoint longestZeros (gs : list N) (i : nat) (best : nat * nat) : nat * nat :=
  match gs with
  | [] => best
  | _ :: rest =>
      let n := zeroRun gs in
      let best' := if Nat.ltb (snd best) n then (i, n) else best in
      longestZeros rest (S i) best'
  end.

Definition text6 (bs : list byte) : string :=
  let gs := groups bs in
  let '(e0, n) := longestZeros gs 0%nat (0%nat, 0%nat) in
  (* "::" never shortens just one 16-bit zero field *)
  if Nat.leb 2 n
  then String.concat ":" (map hexGroup (firstn e0 gs)) ++ "::"
       ++ String.concat ":" (map hexGroup (skipn (e0 + n) gs))
  else String.concat ":" (map hexGroup gs).

Definition text4 (bs : list byte) : string :=
  String.concat "." (map (fun b => uitoa (Byte.to_N b)) bs).

(** [func (ip IP) String() string] *)
Definition IP_String (ip : IP) : string :=
  match ip with
  | None => "<nil>"
  | Some [] => "<nil>"
  | Some bs =>
      match To4 ip with
      | Some p4 => text4 p4
      | None =>
          if Nat.eqb (List.length bs) IPv6len then text6 bs
          else "?" ++ hexString bs
      end
  end.

(** [func (m IPMask) String() string] *)
Definition IPMask_String (m : IPMask) : string :=
  match m with
  | None | Some [] => "<nil>"
  | Some bs => hexString bs
  end.

(** [net.IPNet]; a [*net.IPNet] is an [option IPNet]. *)
Record IPNet := { IP_ : IP; Mask : IPMask }.

(** [networkNumberAndMask] *)
Definition networkNumberAndMask (n : IPNet) : option (list byte * list byte) :=
  let ip :=
    match To4 (IP_ n) with
    | Some p4 => Some p4
    | None => if Nat.eqb (len (IP_ n)) IPv6len then IP_ n else None
    end in
  match ip with
  | None => None
  | Some ipb =>
      match Mask n with
      | None => None
      | Some m =>
          if Nat.eqb (List.length m) IPv4len then
            if Nat.eqb (List.length ipb) IPv4len then Some (ipb, m) else None
          else if Nat.eqb (List.length m) IPv6len then
            if Nat.eqb (List.length ipb) IPv4len then Some (ipb, skipn 12 m)
            else Some (ipb, m)
          else None
      end
  end.

(** Leading one bits of a byte, and what is left after shifting them out. *)
Fixpoint leadingOnes (fuel : nat) (v : N) : nat * N :=
  match fuel with
  | O => (O, v)
  | S f =>
      if N.testbit v 7
      then let '(k, r) := leadingOnes f ((v * 2) mod 256)%N in (S k, r)
      else (O, v)
  end.

(** [simpleMaskLength]; [None] is the source's [-1]. *)
Fixpoint simpleMaskLength (mask : list byte) : option nat :=
  match mask with
  | [] => Some O
  | v :: rest =>
      if Byte.eqb v xff
      then option_map (fun n => (8 + n)%nat) (simpleMaskLength rest)
      else
        let '(k, r) := leadingOnes 8 (Byte.to_N v) in
        if negb (N.eqb r 0) then None
        else if isZeros rest then Some k else None
  end.

(** [func (n *IPNet) String() string] *)
Definition IPNet_String (n : option IPNet) : string :=
  match n with
  | None => "<nil>"
  | Some n =>
      match networkNumberAndMask n with
      | None => "<nil>"
      | Some (nn, m) =>
          match simpleMaskLength m with
          | None => IP_String (Some nn) ++ "/" ++ IPMask_String (Some m)
          | Some l => IP_String (Some nn) ++ "/" ++ uitoa (N.of_nat l)
          end
      end
  end.

(** [^byte(0xff >> n)], for [n] below 8. *)
Definition maskByte (n : N) : byte :=
  match Byte.of_N (255 - N.shiftr 255 n)%N with
  | Some b => b
  | None => x00
  end.

(** The loop of [CIDRMask]: [l] bytes, [n] one bits still to place. *)
Fixpoint maskBytes (l : nat) (n : N) : list byte :=
  match l with
  | O => []
  | S l' =>
      if (8 <=? n)%N then xff :: maskBytes l' (n - 8)%N
      else maskByte n :: maskBytes l' 0%N
  end.

(** [func CIDRMask(ones, bits int) IPMask] *)
Definition CIDRMask (ones bits : Z) : IPMask :=
  if negb (bits =? 8 * Z.of_nat IPv4len) && negb (bits =? 8 * Z.of_nat IPv6len)
  then None
  else if (ones <? 0) || (bits <? ones) then None
  else Some (maskBytes (Z.to_nat (bits / 8)) (Z.to_N ones)).

Definition IP_eq_dec (a b : IP) : {a = b} + {a <> b}.
Proof. decide equality. apply list_eq_dec, Byte.byte_eq_dec. Defined.

Definition IPNet_eq_dec (a b : IPNet) : {a = b} + {a <> b}.
Proof. decide equality; apply IP_eq_dec. Defined.

Definition Dst_eq_dec (a b : option IPNet) : {a = b} + {a <> b}.
Proof. decide equality. apply IPNet_eq_dec. Defined.

End net.

(* ================================================================== *)
(** * The part of [vishvananda/netlink] that [route.go] uses *)

Module netlink.

(** [unix.AF_UNSPEC], [unix.AF_INET], [unix.AF_INET6] *)
Definition FAMILY_ALL : Z := 0.
Definition FAMILY_V4 : Z := 2.
Definition FAMILY_V6 : Z := 10.

End netlink.

(** What [link.Attrs()] exposes of a link. *)
Module Link.
Record t := { Index : Z; Name : string }.
End Link.

Module NexthopInfo.
Record t := { LinkIndex : Z; Hops : Z; Gw : net.IP; Flags : Z }.
End NexthopInfo.

Module Route.
Record t := {
  LinkIndex : Z;
  Scope : Z;
  Dst : option net.IPNet;
  Src : net.IP;
  Gw : net.IP;
  MultiPath : list NexthopInfo.t;
  Protocol : Z;
  Priority : Z;
  Family : Z;
  Table : Z;
  Type_ : Z;
  MTU : Z
}.

(** The zero value [netlink.Route{}]. *)
Definition zero : t :=
  {| LinkIndex := 0; Scope := 0; Dst := None; Src := None; Gw := None;
     MultiPath := []; Protocol := 0; Priority := 0; Family := 0;
     Table := 0; Type_ := 0; MTU := 0 |}.

(** [route.Gw = gw] *)
Definition setGw (gw : net.IP) (r : t) : t :=
  {| LinkIndex := LinkIndex r; Scope := Scope r; Dst := Dst r; Src := Src r;
     Gw := gw; MultiPath := MultiPath r; Protocol := Protocol r;
     Priority := Priority r; Family := Family r; Table := Table r;
     Type_ := Type_ r; MTU := MTU r |}.

(** [route.Table = table] *)
Definition setTable (table : Z) (r : t) : t :=
  {| LinkIndex := LinkIndex r; Scope := Scope r; Dst := Dst r; Src := Src r;
     Gw := Gw r; MultiPath := MultiPath r; Protocol := Protocol r;
     Priority := Priority r; Family := Family r; Table := table;
     Type_ := Type_ r; MTU := MTU r |}.
End Route.

Module Rule.
Record t := {
  Priority : Z;
  Family : Z;
  Table : Z;
  Mark : Z;
  Src : option net.IPNet;
  Dst : option net.IPNet
}.

Definition setTable (v : Z) (r : t) : t :=
  {| Priority := Priority r; Family := Family r; Table := v;
     Mark := Mark r; Src := Src r; Dst := Dst r |}.
Definition setDst (v : option net.IPNet) (r : t) : t :=
  {| Priority := Priority r; Family := Family r; Table := Table r;
     Mark := Mark r; Src := Src r; Dst := v |}.
Definition setSrc (v : option net.IPNet) (r : t) : t :=
  {| Priority := Priority r; Family := Family r; Table := Table r;
     Mark := Mark r; Src := v; Dst := Dst r |}.
Definition setMark (v : Z) (r : t) : t :=
  {| Priority := Priority r; Family := Family r; Table := Table r;
     Mark := v; Src := Src r; Dst := Dst r |}.
Definition setFamily (v : Z) (r : t) : t :=
  {| Priority := Priority r; Family := v; Table := Table r;
     Mark := Mark r; Src := Src r; Dst := Dst r |}.
Definition setPriority (v : Z) (r : t) : t :=
  {| Priority := v; Family := Family r; Table := Table r;
     Mark := Mark r; Src := Src r; Dst := Dst r |}.
End Rule.

(** The kernel and library capabilities the code consumes.  [K] is the state
    of one network namespace, [error] the errors the kernel reports.  The
    list and lookup calls read the state; add and delete answer with an
    error or nil and the next state. *)
Class Netlink (K error : Type) := {
  LinkByName : string -> K -> error + Link.t;
  LinkByIndex : Z -> K -> error + Link.t;
  RouteList : option Link.t -> Z -> K -> error + list Route.t;
  RouteAdd : Route.t -> K -> option error * K;
  RouteDel : Route.t -> K -> option error * K;
  RuleAdd : Rule.t -> K -> option error * K;
  RuleDel : Rule.t -> K -> option error * K;
  (** [netlink.NewRule()]: the library's defaults for a fresh rule *)
  NewRule : Rule.t;
  (** [os.IsExist] *)
  IsExist : error -> bool;
  (** [ns.NetNS] with its [Do]: entering the namespace fails, or the
      closure runs on that namespace's state and [Do] returns its error *)
  NetNS : Type;
  Do : NetNS -> error + K
}.

(** The mutating calls submitted to the kernel, in order. *)
Inductive Call :=
| CRouteAdd (r : Route.t)
| CRouteDel (r : Route.t)
| CRuleAdd (r : Rule.t)
| CRuleDel (r : Rule.t).

(** The errors the functions return: the kernel's own, or one built with
    [fmt.Errorf]. *)
Inductive Error (error : Type) :=
| Verbatim (e : error)
| UnknownIpFamily (ipFamily : Z)
| FailedAddRouteTable (r : Route.t) (e : error)
| FailedRouteDelMain (r : Route.t) (e : error)
| FailedRouteAddNewTable (r : Route.t) (e : error)
| FailedRouteDelIPv6 (r : Route.t) (e : error)
| FailedRouteAddIPv6 (r : Route.t) (e : error).
Arguments UnknownIpFamily {error} ipFamily.

Inductive Res (E A : Type) :=
| Ok (a : A)
| Fail (e : E).
Arguments Ok {E A} a.
Arguments Fail {E A} e.

Record World (K : Type) := { kernel : K; calls : list Call }.

(** State and error monad: the state survives a failure, as the kernel's
    tables do. *)
Definition M (K error A : Type) : Type :=
  World K -> Res (Error error) A * World K.

Definition ret {K error A} (a : A) : M K error A := fun w => (Ok a, w).

Definition fail {K error A} (e : Error error) : M K error A :=
  fun w => (Fail e, w).

Definition bind {K error A B} (c : M K error A) (f : A -> M K error B)
  : M K error B :=
  fun w =>
    match c w with
    | (Ok a, w') => f a w'
    | (Fail e, w') => (Fail e, w')
    end.

Notation "x <- c1 ;; c2" := (bind c1 (fun x => c2))
  (at level 61, c1 at next level, right associativity).

Definition defaultRulePriority : Z := 1000.

Section Programs.

Context {K error : Type} {nl : Netlink K error}.

(** A read: the error, if any, is returned as it is. *)
Definition read {A} (q : K -> error + A) : M K error A :=
  fun w =>
    match q (kernel w) with
    | inr a => (Ok a, w)
    | inl e => (Fail (Verbatim e), w)
    end.

(** A mutation: recorded, and its error handed to the caller. *)
Definition submit (c : Call) (op : K -> option error * K) : M K error (option error) :=
  fun w =>
    let '(e, k') := op (kernel w) in
    (Ok e, {| kernel := k'; calls := (calls w ++ [c])%list |}).

Definition netlink_RouteAdd (r : Route.t) := submit (CRouteAdd r) (RouteAdd r).
Definition netlink_RouteDel (r : Route.t) := submit (CRouteDel r) (RouteDel r).
Definition netlink_RuleAdd (r : Rule.t) := submit (CRuleAdd r) (RuleAdd r).
Definition netlink_RuleDel (r : Rule.t) := submit (CRuleDel r) (RuleDel r).

(** [return netlink.RuleAdd(rule)] and the like *)
Definition verbatim (c : M K error (option error)) : M K error unit :=
  e <- c ;;
  match e with
  | Some err => fail (Verbatim err)
  | None => ret tt
  end.

Definition GetRoutesByName (iface : string) (ipfamily : Z) : M K error (list Route.t) :=
  link <- (if String.eqb iface ""
           then ret None
           else l <- read (LinkByName iface) ;; ret (Some l)) ;;
  read (RouteList link ipfamily).

(** [route.Dst == nil || route.Dst.IP.Equal(net.IPv4zero)] *)
Definition isDefault (dst : option net.IPNet) : bool :=
  match dst with
  | None => true
  | Some n => net.Equal (net.IP_ n) net.IPv4zero
  end.

(** The inner loop of [GetDefaultGatewayByName], with its [break]. *)
Fixpoint segmentGateway (index : Z) (mp : list NexthopInfo.t) (gws : list string)
  : list string :=
  match mp with
  | [] => gws
  | r :: rest =>
      if NexthopInfo.LinkIndex r =? index
      then (gws ++ [net.IP_String (NexthopInfo.Gw r)])%list
      else segmentGateway index rest gws
  end.

Fixpoint collectGateways (index : Z) (routes : list Route.t) (gws : list string)
  : list string :=
  match routes with
  | [] => gws
  | route :: rest =>
      let gws :=
        if Route.LinkIndex route =? index then
          if isDefault (Route.Dst route)
          then (gws ++ [net.IP_String (Route.Gw route)])%list
          else gws
        else
          if Nat.ltb 0 (List.length (Route.MultiPath route))
          then segmentGateway index (Route.MultiPath route) gws
          else gws in
      collectGateways index rest gws
  end.

Definition GetDefaultGatewayByName (iface : string) (ipfamily : Z)
  : M K error (list string) :=
  routes <- GetRoutesByName "" ipfamily ;;
  link <- read (LinkByName iface) ;;
  ret (collectGateways (Link.Index link) routes []).

Definition AddToRuleTable (dst : option net.IPNet) (ruleTable : Z) : M K error unit :=
  let rule := NewRule in
  let rule := Rule.setTable ruleTable rule in
  let rule := Rule.setDst dst rule in
  verbatim (netlink_RuleAdd rule).

Definition DelToRuleTable (dst : option net.IPNet) (ruleTable : Z) : M K error unit :=
  let rule := NewRule in
  let rule := Rule.setTable ruleTable rule in
  let rule := Rule.setDst dst rule in
  verbatim (netlink_RuleDel rule).

Definition AddRuleTableWithMark (mark ruleTable ipFamily : Z) : M K error unit :=
  let rule := NewRule in
  let rule := Rule.setMark mark rule in
  let rule := Rule.setTable ruleTable rule in
  let rule := Rule.setFamily ipFamily rule in
  let rule := Rule.setPriority defaultRulePriority rule in
  verbatim (netlink_RuleAdd rule).

Definition AddFromRuleTable (src : option net.IPNet) (ruleTable : Z) : M K error unit :=
  let rule := NewRule in
  let rule := Rule.setTable ruleTable rule in
  let rule := Rule.setSrc src rule in
  verbatim (netlink_RuleAdd rule).

Definition DelFromRuleTable (src : option net.IPNet) (ruleTable : Z) : M K error unit :=
  let rule := NewRule in
  let rule := Rule.setTable ruleTable rule in
  let rule := Rule.setSrc src rule in
  verbatim (netlink_RuleDel rule).

Definition notNil {A} (p : option A) : bool :=
  match p with Some _ => true | None => false end.

(** [dst != nil && dst.IP.To4() != nil] *)
Definition dstIs4 (dst : option net.IPNet) : bool :=
  match dst with
  | Some n => notNil (net.To4 (net.IP_ n))
  | None => false
  end.

(** [dst != nil && dst.IP.To4() == nil] *)
Definition dstIsNot4 (dst : option net.IPNet) : bool :=
  match dst with
  | Some n => negb (notNil (net.To4 (net.IP_ n)))
  | None => false
  end.

(** The [switch ipFamily] of [AddRoute]: the route with its gateway, or
    the error of the default case. *)
Definition selectGateway (ipFamily : Z) (dst : option net.IPNet)
           (v4Gw v6Gw : net.IP) (route : Route.t) : M K error Route.t :=
  if ipFamily =? netlink.FAMILY_V4 then
    ret (if notNil v4Gw then Route.setGw v4Gw route else route)
  else if ipFamily =? netlink.FAMILY_V6 then
    ret (if notNil v6Gw then Route.setGw v6Gw route else route)
  else if ipFamily =? netlink.FAMILY_ALL then
    let route :=
      if dstIs4 dst && notNil v4Gw then Route.setGw v4Gw route else route in
    let route :=
      if dstIsNot4 dst && notNil v6Gw then Route.setGw v6Gw route else route in
    ret route
  else fail (UnknownIpFamily ipFamily).

Definition AddRoute (ruleTable ipFamily : Z) (scope : Z) (iface : string)
           (dst : option net.IPNet) (v4Gw v6Gw : net.IP) : M K error unit :=
  link <- read (LinkByName iface) ;;
  let route :=
    {| Route.LinkIndex := Link.Index link; Route.Scope := scope;
       Route.Dst := dst; Route.Src := None; Route.Gw := None;
       Route.MultiPath := []; Route.Protocol := 0; Route.Priority := 0;
       Route.Family := 0; Route.Table := ruleTable; Route.Type_ := 0;
       Route.MTU := 0 |} in
  route <- selectGateway ipFamily dst v4Gw v6Gw route ;;
  err <- netlink_RouteAdd route ;;
  match err with
  | Some e =>
      if negb (IsExist e) then fail (FailedAddRouteTable route e) else ret tt
  | None => ret tt
  end.

(** The scan of [route.MultiPath] in [MoveRouteTable]: the generated and
    the deleted route of the first segment on the interface.  The source
    sets both pointers together, so one optional pair stands for them. *)
Fixpoint splitSegment (index srcRuleTable dstRuleTable : Z) (route : Route.t)
         (mp : list NexthopInfo.t) : option (Route.t * Route.t) :=
  match mp with
  | [] => None
  | v :: rest =>
      if NexthopInfo.LinkIndex v =? index then
        let generatedRoute :=
          {| Route.LinkIndex := NexthopInfo.LinkIndex v; Route.Scope := 0;
             Route.Dst := None; Route.Src := None;
             Route.Gw := NexthopInfo.Gw v; Route.MultiPath := [];
             Route.Protocol := 0; Route.Priority := 0; Route.Family := 0;
             Route.Table := dstRuleTable; Route.Type_ := 0;
             Route.MTU := Route.MTU route |} in
        let deletedRoute :=
          {| Route.LinkIndex := NexthopInfo.LinkIndex v; Route.Scope := 0;
             Route.Dst := None; Route.Src := None;
             Route.Gw := NexthopInfo.Gw v; Route.MultiPath := [];
             Route.Protocol := 0; Route.Priority := 0; Route.Family := 0;
             Route.Table := srcRuleTable; Route.Type_ := 0;
             Route.MTU := 0 |} in
        Some (generatedRoute, deletedRoute)
      else splitSegment index srcRuleTable dstRuleTable route rest
  end.

(** One turn of the loop of [MoveRouteTable]: [Ok tt] goes on to the next
    route, [Fail] is the function's return. *)
Definition moveRoute (link : Link.t) (srcRuleTable dstRuleTable : Z)
           (route : Route.t) : M K error unit :=
  (* only handle route tables from table main *)
  if negb (Route.Table route =? srcRuleTable) then ret tt
  (* ignore local link route *)
  else if String.eqb (net.IPNet_String (Route.Dst route)) "fe80::/64" then ret tt
  else if Route.LinkIndex route =? Link.Index link then
    err <- netlink_RouteDel route ;;
    match err with
    | Some e => fail (FailedRouteDelMain route e)
    | None =>
        let route := Route.setTable dstRuleTable route in
        err <- netlink_RouteAdd route ;;
        match err with
        | Some e =>
            if negb (IsExist e) then fail (FailedRouteAddNewTable route e)
            else ret tt
        | None => ret tt
        end
    end
  else
    (* especially for ipv6 default route *)
    if Nat.eqb (List.length (Route.MultiPath route)) 0 then ret tt
    else
      match splitSegment (Link.Index link) srcRuleTable dstRuleTable route
                         (Route.MultiPath route) with
      | None => ret tt
      | Some (generatedRoute, deletedRoute) =>
          err <- netlink_RouteDel deletedRoute ;;
          match err with
          | Some e => fail (FailedRouteDelIPv6 route e)
          | None =>
              err <- netlink_RouteAdd generatedRoute ;;
              match err with
              | Some e =>
                  if negb (IsExist e) then fail (FailedRouteAddIPv6 route e)
                  else ret tt
              | None => ret tt
              end
          end
      end.

Fixpoint moveRoutes (link : Link.t) (srcRuleTable dstRuleTable : Z)
         (routes : list Route.t) : M K error unit :=
  match routes with
  | [] => ret tt
  | route :: rest =>
      _ <- moveRoute link srcRuleTable dstRuleTable route ;;
      moveRoutes link srcRuleTable dstRuleTable rest
  end.

Definition MoveRouteTable (iface : string)
           (srcRuleTable dstRuleTable ipfamily : Z) : M K error unit :=
  link <- read (LinkByName iface) ;;
  routes <- read (RouteList None ipfamily) ;;
  moveRoutes link srcRuleTable dstRuleTable routes.

Definition getDefaultRouteIface (linkIndex : Z) (ignore : string) (k : K)
  : string * option error :=
  match LinkByIndex linkIndex k with
  | inl err => ("", Some err)
  | inr link =>
      if negb (String.eqb ignore "") && String.eqb (Link.Name link) ignore
      then ("", None)
      else (Link.Name link, None)
  end.

(** How a loop inside the closure of [GetDefaultRouteInterface] ends: the
    closure returns, or the loop runs out. *)
Inductive Flow :=
| Return (err : option error)
| Next.

(** Each loop threads the captured variable [defaultInterface]. *)
Fixpoint scanSegments (filterInterface : string) (k : K)
         (mp : list NexthopInfo.t) (defaultInterface : string)
  : Flow * string :=
  match mp with
  | [] => (Next, defaultInterface)
  | v6DefaultRoute :: rest =>
      let '(defaultInterface, err) :=
        getDefaultRouteIface (NexthopInfo.LinkIndex v6DefaultRoute)
                             filterInterface k in
      match err with
      | Some e => (Return (Some e), defaultInterface)
      | None =>
          if negb (String.eqb defaultInterface "")
          then (Return None, defaultInterface)
          else scanSegments filterInterface k rest defaultInterface
      end
  end.

Fixpoint scanV6 (filterInterface : string) (k : K) (routes : list Route.t)
         (defaultInterface : string) : option error * string :=
  match routes with
  | [] => (None, defaultInterface)
  | route :: rest =>
      if Nat.ltb 0 (List.length (Route.MultiPath route)) then
        (* found v6 default route *)
        match scanSegments filterInterface k (Route.MultiPath route)
                           defaultInterface with
        | (Return err, defaultInterface) => (err, defaultInterface)
        | (Next, defaultInterface) =>
            scanV6 filterInterface k rest defaultInterface
        end
      else scanV6 filterInterface k rest defaultInterface
  end.

Fixpoint scanV4 (filterInterface : string) (k : K) (routes : list Route.t)
         (defaultInterface : string) : option error * string :=
  match routes with
  | [] => (None, defaultInterface)
  | route :: rest =>
      if (Route.Family route =? netlink.FAMILY_V4)
         && isDefault (Route.Dst route) then
        (* found default route *)
        let '(defaultInterface, err) :=
          getDefaultRouteIface (Route.LinkIndex route) filterInterface k in
        match err with
        | Some e => (Some e, defaultInterface)
        | None =>
            if negb (String.eqb defaultInterface "")
            then (None, defaultInterface)
            else scanV4 filterInterface k rest defaultInterface
        end
      else scanV4 filterInterface k rest defaultInterface
  end.

Definition GetDefaultRouteInterface (ipfamily : Z) (filterInterface : string)
           (netns : NetNS) : string * option error :=
  let defaultInterface := "" in
  match Do netns with
  | inl e => (defaultInterface, Some e)
  | inr k =>
      match RouteList None ipfamily k with
      | inl err => (defaultInterface, Some err)
      | inr routes =>
          let '(err, defaultInterface) :=
            if ipfamily =? netlink.FAMILY_V6
            then scanV6 filterInterface k routes defaultInterface
            else scanV4 filterInterface k routes defaultInterface in
          (defaultInterface, err)
      end
  end.

Definition ConvertMaxMaskIPNet (nip : net.IP) : net.IPNet :=
  {| net.IP_ := nip;
     net.Mask := if notNil (net.To4 nip)
                 then net.CIDRMask 32 32
                 else net.CIDRMask 128 128 |}.

End Programs.

(* ================================================================== *)
(** * Readings of the specification, to compare the code with *)

Section Readings.

(** "the first segment whose link index equals the interface's" *)
Definition segmentOn (index : Z) (mp : list NexthopInfo.t)
  : option NexthopInfo.t :=
  find (fun v => NexthopInfo.LinkIndex v =? index) mp.

(** What one route contributes to the default gateways of an interface,
    in the specification's words: its own gateway if its link is the
    interface's and it is a default route; for each other route, the
    gateway of the first segment on the interface. *)
Definition spec_gatewaysOf (index : Z) (route : Route.t) : list string :=
  if (Route.LinkIndex route =? index) && isDefault (Route.Dst route)
  then [net.IP_String (Route.Gw route)]
  else match segmentOn index (Route.MultiPath route) with
       | Some v => [net.IP_String (NexthopInfo.Gw v)]
       | None => []
       end.

(** The same, with the segments scanned only when the route's own link
    is not the interface's. *)
Definition gatewaysOf (index : Z) (route : Route.t) : list string :=
  if Route.LinkIndex route =? index then
    if isDefault (Route.Dst route)
    then [net.IP_String (Route.Gw route)] else []
  else match segmentOn index (Route.MultiPath route) with
       | Some v => [net.IP_String (NexthopInfo.Gw v)]
       | None => []
       end.

(** The data model's invariant on a listed route, as far as one interface
    goes: ownership of a route with segments is resolved per segment, so
    such a route is not bound to the interface by a link of its own (the
    kernel lists it with no link at all, and no interface has index 0). *)
Definition segmentsUnbound (index : Z) (r : Route.t) : Prop :=
  Route.MultiPath r <> [] -> Route.LinkIndex r <> index.

(** "if it parses as an IPv4 address" *)
Definition parsesAsIPv4 (dst : option net.IPNet) : bool :=
  match dst with
  | Some n => match net.To4 (net.IP_ n) with Some _ => true | None => false end
  | None => false
  end.

(** Gateway selection by family in the specification's words: for "both",
    [ipv4Gateway] if the destination parses as an IPv4 address, otherwise
    [ipv6Gateway]. *)
Definition spec_gateway (ipFamily : Z) (dst : option net.IPNet)
           (v4Gw v6Gw : net.IP) : net.IP :=
  if ipFamily =? netlink.FAMILY_V4 then v4Gw
  else if ipFamily =? netlink.FAMILY_V6 then v6Gw
  else if parsesAsIPv4 dst then v4Gw else v6Gw.

(** The route [AddRoute] builds, with its gateway. *)
Definition baseRoute (link : Link.t) (scope : Z) (dst : option net.IPNet)
           (ruleTable : Z) (gw : net.IP) : Route.t :=
  {| Route.LinkIndex := Link.Index link; Route.Scope := scope;
     Route.Dst := dst; Route.Src := None; Route.Gw := gw;
     Route.MultiPath := []; Route.Protocol := 0; Route.Priority := 0;
     Route.Family := 0; Route.Table := ruleTable; Route.Type_ := 0;
     Route.MTU := 0 |}.

(** The single-nexthop route generated from a segment, and the descriptor
    deleted for it. *)
Definition generatedFrom (v : NexthopInfo.t) (dstRuleTable mtu : Z) : Route.t :=
  {| Route.LinkIndex := NexthopInfo.LinkIndex v; Route.Scope := 0;
     Route.Dst := None; Route.Src := None; Route.Gw := NexthopInfo.Gw v;
     Route.MultiPath := []; Route.Protocol := 0; Route.Priority := 0;
     Route.Family := 0; Route.Table := dstRuleTable; Route.Type_ := 0;
     Route.MTU := mtu |}.

Definition deletedFor (v : NexthopInfo.t) (srcRuleTable : Z) : Route.t :=
  generatedFrom v srcRuleTable 0.

(** The IPv6 link-local network [fe80::/64]. *)
Definition linkLocal64 : net.IPNet :=
  {| net.IP_ := Some [xfe; x80; x00; x00; x00; x00; x00; x00;
                      x00; x00; x00; x00; x00; x00; x00; x00];
     net.Mask := Some [xff; xff; xff; xff; xff; xff; xff; xff;
                       x00; x00; x00; x00; x00; x00; x00; x00] |}.

(** The documentation address [2001:db8::1]. *)
Definition ip_2001_db8__1 : net.IP :=
  Some [x20; x01; x0d; xb8; x00; x00; x00; x00;
        x00; x00; x00; x00; x00; x00; x00; x01].

(** The route a call carries. *)
Definition routeOf (c : Call) : option Route.t :=
  match c with
  | CRouteAdd r | CRouteDel r => Some r
  | _ => None
  end.

(** The names [getDefaultRouteIface] and its callers pass over: the
    excluded one, and the empty name. *)
Definition passedOver (exclude name : string) : bool :=
  (negb (String.eqb exclude "") && String.eqb name exclude)
  || String.eqb name "".

Fixpoint removeFirst {A} (p : A -> bool) (l : list A) : list A :=
  match l with
  | [] => []
  | x :: rest => if p x then rest else x :: removeFirst p rest
  end.

Fixpoint replaceFirst {A} (p : A -> bool) (f : A -> A) (l : list A) : list A :=
  match l with
  | [] => []
  | x :: rest => if p x then f x :: rest else x :: replaceFirst p f rest
  end.

End Readings.

Section Candidates.

Context {K error : Type} {nl : Netlink K error}.

(** The link indices [GetDefaultRouteInterface] looks at, in order: for
    v6 the segments of every multipath route, otherwise the links of the
    v4 default routes. *)
Definition candidates (ipfamily : Z) (routes : list Route.t) : list Z :=
  if ipfamily =? netlink.FAMILY_V6
  then flat_map (fun r => map NexthopInfo.LinkIndex (Route.MultiPath r)) routes
  else map Route.LinkIndex
           (filter (fun r => (Route.Family r =? netlink.FAMILY_V4)
                             && isDefault (Route.Dst r)) routes).


(** The multipath branch of [MoveRouteTable] as the specification words
    it, for a route of the source table on another link that carries
    segments: with a segment on the interface, the descriptor is deleted
    and then the generated route added. *)
Definition spec_multipath_moved (link : Link.t) (srcRuleTable dstRuleTable : Z)
           (route : Route.t) (w : World K) : Prop :=
  Route.Table route = srcRuleTable ->
  Route.LinkIndex route <> Link.Index link ->
  Route.MultiPath route <> [] ->
  forall v, segmentOn (Link.Index link) (Route.MultiPath route) = Some v ->
  exists more,
    calls (snd (moveRoute link srcRuleTable dstRuleTable route w))
    = (calls w ++ CRouteDel (deletedFor v srcRuleTable) :: more)%list.

(** The scan of [GetDefaultRouteInterface] over link indices. *)
Fixpoint scanLinks (filterInterface : string) (k : K) (indices : list Z)
         (defaultInterface : string) : option error * string :=
  match indices with
  | [] => (None, defaultInterface)
  | index :: rest =>
      let '(defaultInterface, err) :=
        getDefaultRouteIface index filterInterface k in
      match err with
      | Some e => (Some e, defaultInterface)
      | None =>
          if negb (String.eqb defaultInterface "")
          then (None, defaultInterface)
          else scanLinks filterInterface k rest defaultInterface
      end
  end.

End Candidates.

(* ================================================================== *)
(** * What the kernel is assumed to do *)

(** What a namespace's state holds. *)
Class KernelView (K : Type) := {
  routeTable : K -> list Route.t;
  ruleTable : K -> list Rule.t;
  (** the rules a delete descriptor selects *)
  ruleMatch : Rule.t -> Rule.t -> bool
}.

(** Routes: an add that succeeds stores the route, an add of a stored route
    reports that it exists, a failed add changes nothing, no add touches
    the links, and a delete removes nothing with another destination. *)
Class RouteLaws {K error : Type} (nl : Netlink K error) (kv : KernelView K)
  : Prop := {
  RouteAdd_ok : forall a k k',
      RouteAdd a k = (None, k') -> routeTable k' = (routeTable k ++ [a])%list;
  RouteAdd_present : forall a k,
      In a (routeTable k) ->
      exists e, RouteAdd a k = (Some e, k) /\ IsExist e = true;
  RouteAdd_failed : forall a k e k',
      RouteAdd a k = (Some e, k') -> k' = k;
  RouteAdd_links : forall a k n,
      LinkByName n (snd (RouteAdd a k)) = LinkByName n k;
  RouteDel_frame : forall d k r,
      In r (routeTable k) -> Route.Dst r <> Route.Dst d ->
      In r (routeTable (snd (RouteDel d k)))
}.

(** Rules.  An add that succeeds puts one rule among those held: the rule
    given, with the destination, source and table given and whatever the
    kernel fills in (a rule given without a priority gets a fresh one, so
    the same rule can be added again); the rule given, used as a delete
    descriptor, selects it.  A delete removes the first rule its descriptor
    selects.  A descriptor selects only rules that agree with it on the
    fields it sets: a nil destination, a nil source and table 0 are unset
    and select anything. *)
Class RuleLaws {K error : Type} (nl : Netlink K error) (kv : KernelView K)
  : Prop := {
  RuleAdd_ok : forall r k k',
      RuleAdd r k = (None, k') ->
      exists stored before after,
        ruleTable k = (before ++ after)%list
        /\ ruleTable k' = (before ++ stored :: after)%list
        /\ Rule.Dst stored = Rule.Dst r
        /\ Rule.Src stored = Rule.Src r
        /\ Rule.Table stored = Rule.Table r
        /\ ruleMatch r stored = true;
  RuleDel_first : forall d k,
      existsb (ruleMatch d) (ruleTable k) = true ->
      exists k', RuleDel d k = (None, k')
                 /\ ruleTable k' = removeFirst (ruleMatch d) (ruleTable k);
  ruleMatch_fields : forall d x,
      ruleMatch d x = true ->
      (Rule.Dst d <> None -> Rule.Dst x = Rule.Dst d)
      /\ (Rule.Src d <> None -> Rule.Src x = Rule.Src d)
      /\ (Rule.Table d <> 0 -> Rule.Table x = Rule.Table d)
}.

Section Frames.

Context {K error : Type} {nl : Netlink K error} {kv : KernelView K}.

(** The world after one mutating call. *)
Definition after (c : Call) (w : World K) : World K :=
  {| kernel := snd (match c with
                    | CRouteAdd r => RouteAdd r
                    | CRouteDel r => RouteDel r
                    | CRuleAdd r => RuleAdd r
                    | CRuleDel r => RuleDel r
                    end (kernel w));
     calls := (calls w ++ [c])%list |}.

(** Delete one route, then add another, the way both branches of
    [moveRoute] do. *)
Definition delThenAdd (d a : Route.t)
           (delFailed addFailed : error -> Error error) : M K error unit :=
  err <- netlink_RouteDel d ;;
  match err with
  | Some e => fail (delFailed e)
  | None =>
      err <- netlink_RouteAdd a ;;
      match err with
      | Some e => if negb (IsExist e) then fail (addFailed e) else ret tt
      | None => ret tt
      end
  end.

(** A call that names no route to [fe80::/64]. *)
Definition offLinkLocal (c : Call) : Prop :=
  forall r, routeOf c = Some r ->
            net.IPNet_String (Route.Dst r) <> "fe80::/64".

(** From [w] to [w']: the routes to [fe80::/64] are all still there, and
    the calls made in between name none of them. *)
Definition sparesLinkLocal (w w' : World K) : Prop :=
  (forall r, net.IPNet_String (Route.Dst r) = "fe80::/64" ->
             In r (routeTable (kernel w)) -> In r (routeTable (kernel w')))
  /\ exists submitted,
      calls w' = (calls w ++ submitted)%list
      /\ Forall offLinkLocal submitted.

End Frames.

(** Tables: an add removes no route, and a delete removes no route of a
    table other than its descriptor's. *)
Class RouteTableLaws {K error : Type} (nl : Netlink K error) (kv : KernelView K)
  : Prop := {
  RouteAdd_removes_nothing : forall a k r,
      In r (routeTable k) -> In r (routeTable (snd (RouteAdd a k)));
  RouteDel_other_table : forall d k r,
      In r (routeTable k) -> Route.Table r <> Route.Table d ->
      In r (routeTable (snd (RouteDel d k)))
}.

(** A trace of moves: each delete in the source table is followed at once
    by the add, in the destination table, of a route with the same link,
    gateway and destination. *)
Inductive movedInPairs (srcRuleTable dstRuleTable : Z) : list Call -> Prop :=
| movedInPairs_nil : movedInPairs srcRuleTable dstRuleTable []
| movedInPairs_cons (d a : Route.t) (rest : list Call) :
    Route.Table d = srcRuleTable ->
    Route.Table a = dstRuleTable ->
    Route.LinkIndex a = Route.LinkIndex d ->
    Route.Gw a = Route.Gw d ->
    Route.Dst a = Route.Dst d ->
    movedInPairs srcRuleTable dstRuleTable rest ->
    movedInPairs srcRuleTable dstRuleTable (CRouteDel d :: CRouteAdd a :: rest).

(* ================================================================== *)
(** * A small kernel to run the programs on *)

Module Mock.

Inductive Errno := EEXIST | ESRCH | ENOENT | ENODEV | EBADF.

Record State := {
  links : list Link.t;
  routes : list Route.t;
  rules : list Rule.t
}.

Definition linkByName (n : string) (s : State) : Errno + Link.t :=
  match find (fun l => String.eqb (Link.Name l) n) (links s) with
  | Some l => inr l
  | None => inl ENODEV
  end.

Definition linkByIndex (i : Z) (s : State) : Errno + Link.t :=
  match find (fun l => Link.Index l =? i) (links s) with
  | Some l => inr l
  | None => inl ENODEV
  end.

Definition routeList (link : option Link.t) (family : Z) (s : State)
  : Errno + list Route.t :=
  inr (filter (fun r =>
                 ((family =? netlink.FAMILY_ALL) || (Route.Family r =? family))
                 && match link with
                    | Some l => Route.LinkIndex r =? Link.Index l
                    | None => true
                    end) (routes s)).

Definition dst_eqb (a b : option net.IPNet) : bool :=
  if net.Dst_eq_dec a b then true else false.

Definition ip_eqb (a b : net.IP) : bool :=
  if net.IP_eq_dec a b then true else false.

(** Two routes the kernel takes for the same entry. *)
Definition sameEntry (a r : Route.t) : bool :=
  (Route.Table a =? Route.Table r)
  && dst_eqb (Route.Dst a) (Route.Dst r)
  && (Route.Priority a =? Route.Priority r).

(** The routes a delete descriptor selects. *)
Definition selects (d r : Route.t) : bool :=
  (Route.Table d =? Route.Table r)
  && dst_eqb (Route.Dst d) (Route.Dst r)
  && ((Route.LinkIndex d =? 0) || (Route.LinkIndex d =? Route.LinkIndex r))
  && (match Route.Gw d with
      | None => true
      | Some _ => ip_eqb (Route.Gw d) (Route.Gw r)
      end).

Definition routeAdd (a : Route.t) (s : State) : option Errno * State :=
  if existsb (sameEntry a) (routes s) then (Some EEXIST, s)
  else (None, {| links := links s; routes := (routes s ++ [a])%list;
                 rules := rules s |}).

(** The segment a delete descriptor names, by link and gateway. *)
Definition namesSegment (d : Route.t) (v : NexthopInfo.t) : bool :=
  (NexthopInfo.LinkIndex v =? Route.LinkIndex d)
  && ip_eqb (NexthopInfo.Gw v) (Route.Gw d).

(** The routes with segments of which a delete descriptor names one. *)
Definition carries (d r : Route.t) : bool :=
  (Route.Table d =? Route.Table r)
  && dst_eqb (Route.Dst d) (Route.Dst r)
  && existsb (namesSegment d) (Route.MultiPath r).

Definition dropSegment (d r : Route.t) : Route.t :=
  {| Route.LinkIndex := Route.LinkIndex r; Route.Scope := Route.Scope r;
     Route.Dst := Route.Dst r; Route.Src := Route.Src r; Route.Gw := Route.Gw r;
     Route.MultiPath := removeFirst (namesSegment d) (Route.MultiPath r);
     Route.Protocol := Route.Protocol r; Route.Priority := Route.Priority r;
     Route.Family := Route.Family r; Route.Table := Route.Table r;
     Route.Type_ := Route.Type_ r; Route.MTU := Route.MTU r |}.

(** A delete removes the first route it selects; failing that, it takes
    the segment it names out of the first route that carries it. *)
Definition routeDel (d : Route.t) (s : State) : option Errno * State :=
  if existsb (selects d) (routes s)
  then (None, {| links := links s;
                 routes := removeFirst (selects d) (routes s);
                 rules := rules s |})
  else if existsb (carries d) (routes s)
  then (None, {| links := links s;
                 routes := replaceFirst (carries d) (dropSegment d) (routes s);
                 rules := rules s |})
  else (Some ESRCH, s).

(** A field of a rule that is not set: -1 for priority and mark, nil for
    the networks, 0 for the table. *)
Definition unsetOr (unset a b : Z) : bool := (a =? unset) || (a =? b).

Definition unsetOrNet (a b : option net.IPNet) : bool :=
  match a with
  | None => true
  | Some _ => dst_eqb a b
  end.

(** The rules a delete descriptor selects: those that agree with it on
    every field it sets. *)
Definition selectsRule (d r : Rule.t) : bool :=
  unsetOr 0 (Rule.Table d) (Rule.Table r)
  && unsetOrNet (Rule.Dst d) (Rule.Dst r)
  && unsetOrNet (Rule.Src d) (Rule.Src r)
  && unsetOr (-1) (Rule.Priority d) (Rule.Priority r)
  && unsetOr (-1) (Rule.Mark d) (Rule.Mark r).

Definition rule_eqb (a b : Rule.t) : bool :=
  (Rule.Priority a =? Rule.Priority b)
  && (Rule.Family a =? Rule.Family b)
  && (Rule.Table a =? Rule.Table b)
  && (Rule.Mark a =? Rule.Mark b)
  && dst_eqb (Rule.Src a) (Rule.Src b)
  && dst_eqb (Rule.Dst a) (Rule.Dst b).

(** The priority given to a rule that comes without one: below every
    priority held. *)
Definition freshPriority (held : list Rule.t) : Z :=
  fold_right (fun r m => Z.min (Rule.Priority r) m) 32766 held - 1.

(** The rule as it is held. *)
Definition storedRule (r : Rule.t) (held : list Rule.t) : Rule.t :=
  if Rule.Priority r =? -1
  then Rule.setPriority (freshPriority held) r
  else r.

(** Rules are held in the order of their priorities. *)
Fixpoint insertRule (x : Rule.t) (held : list Rule.t) : list Rule.t :=
  match held with
  | [] => [x]
  | y :: rest =>
      if Rule.Priority x <? Rule.Priority y then x :: y :: rest
      else y :: insertRule x rest
  end.

(** An add is refused only for a rule that is held already, priority and
    all; a rule without a priority is never held already. *)
Definition ruleAdd (r : Rule.t) (s : State) : option Errno * State :=
  let x := storedRule r (rules s) in
  if existsb (rule_eqb x) (rules s) then (Some EEXIST, s)
  else (None, {| links := links s; routes := routes s;
                 rules := insertRule x (rules s) |}).

Definition ruleDel (d : Rule.t) (s : State) : option Errno * State :=
  if existsb (selectsRule d) (rules s)
  then (None, {| links := links s; routes := routes s;
                 rules := removeFirst (selectsRule d) (rules s) |})
  else (Some ENOENT, s).

Definition isExist (e : Errno) : bool :=
  match e with EEXIST => true | _ => false end.

Definition newRule : Rule.t :=
  {| Rule.Priority := -1; Rule.Family := 0; Rule.Table := 0;
     Rule.Mark := -1; Rule.Src := None; Rule.Dst := None |}.

#[global] Instance netlinkOf : Netlink State Errno := {
  LinkByName := linkByName;
  LinkByIndex := linkByIndex;
  RouteList := routeList;
  RouteAdd := routeAdd;
  RouteDel := routeDel;
  RuleAdd := ruleAdd;
  RuleDel := ruleDel;
  NewRule := newRule;
  IsExist := isExist;
  NetNS := option State;
  Do := fun ns => match ns with Some s => inr s | None => inl EBADF end
}.

#[global] Instance view : KernelView State := {
  routeTable := routes;
  ruleTable := rules;
  ruleMatch := selectsRule
}.

Definition start (s : State) : World State := {| kernel := s; calls := [] |}.

(** A namespace with two interfaces and no routes or rules. *)
Definition eth0 : Link.t := {| Link.Index := 2; Link.Name := "eth0" |}.
Definition net1 : Link.t := {| Link.Index := 3; Link.Name := "net1" |}.

Definition bare : State := {| links := [eth0; net1]; routes := []; rules := [] |}.

Definition gw4 : net.IP := Some [x0a; x01; x01; x01].
Definition gw6 : net.IP := ip_2001_db8__1.
Definition gw6' : net.IP :=
  Some [x20; x01; x0d; xb8; x00; x00; x00; x00;
        x00; x00; x00; x00; x00; x00; x00; x02].

Definition net10 : net.IPNet :=
  {| net.IP_ := Some [x0a; x00; x00; x00];
     net.Mask := Some [xff; xff; xff; x00] |}.

(** [default via 10.1.1.1 dev <link>] in the main table. *)
Definition default4 (link : Link.t) : Route.t :=
  {| Route.LinkIndex := Link.Index link; Route.Scope := 0; Route.Dst := None;
     Route.Src := None; Route.Gw := gw4; Route.MultiPath := [];
     Route.Protocol := 0; Route.Priority := 0;
     Route.Family := netlink.FAMILY_V4; Route.Table := 254;
     Route.Type_ := 1; Route.MTU := 0 |}.

Definition twoDefaults : State :=
  {| links := [eth0; net1]; routes := [default4 eth0; default4 net1];
     rules := [] |}.

Definition hop (link : Link.t) (gw : net.IP) : NexthopInfo.t :=
  {| NexthopInfo.LinkIndex := Link.Index link; NexthopInfo.Hops := 0;
     NexthopInfo.Gw := gw; NexthopInfo.Flags := 0 |}.

(** A route with segments, as the kernel lists it: no link of its own. *)
Definition multipath (dst : option net.IPNet) (family : Z)
           (mp : list NexthopInfo.t) : Route.t :=
  {| Route.LinkIndex := 0; Route.Scope := 0; Route.Dst := dst;
     Route.Src := None; Route.Gw := None; Route.MultiPath := mp;
     Route.Protocol := 0; Route.Priority := 1024; Route.Family := family;
     Route.Table := 254; Route.Type_ := 1; Route.MTU := 1500 |}.

(** [default nexthop via 2001:db8::2 dev eth0 nexthop via 2001:db8::1 dev net1] *)
Definition sharedDefault6 : State :=
  {| links := [eth0; net1];
     routes := [multipath None netlink.FAMILY_V6 [hop eth0 gw6'; hop net1 gw6]];
     rules := [] |}.

(** A route to 10.0.0.0/24 on eth0 that also lists eth0 as a segment. *)
Definition onLinkSegments : Route.t :=
  {| Route.LinkIndex := Link.Index eth0; Route.Scope := 0;
     Route.Dst := Some net10; Route.Src := None; Route.Gw := None;
     Route.MultiPath := [hop eth0 gw4]; Route.Protocol := 0;
     Route.Priority := 0; Route.Family := netlink.FAMILY_V4;
     Route.Table := 254; Route.Type_ := 1; Route.MTU := 0 |}.

Definition withOnLinkSegments : State :=
  {| links := [eth0; net1]; routes := [onLinkSegments]; rules := [] |}.

(** [fe80::/64] in the main table: on net1, and as a route with segments. *)
Definition linkLocalOn (link : Link.t) : Route.t :=
  {| Route.LinkIndex := Link.Index link; Route.Scope := 0;
     Route.Dst := Some linkLocal64; Route.Src := None; Route.Gw := None;
     Route.MultiPath := []; Route.Protocol := 2; Route.Priority := 256;
     Route.Family := netlink.FAMILY_V6; Route.Table := 254;
     Route.Type_ := 1; Route.MTU := 0 |}.

Definition linkLocalSegments : Route.t :=
  multipath (Some linkLocal64) netlink.FAMILY_V6 [hop eth0 None; hop net1 None].

Definition withLinkLocal : State :=
  {| links := [eth0; net1];
     routes := [linkLocalOn net1; default4 net1];
     rules := [] |}.

Definition withLinkLocalSegments : State :=
  {| links := [eth0; net1]; routes := [linkLocalSegments]; rules := [] |}.

(** An on-link default route: no gateway. *)
Definition onLinkDefault (link : Link.t) : Route.t :=
  {| Route.LinkIndex := Link.Index link; Route.Scope := 253; Route.Dst := None;
     Route.Src := None; Route.Gw := None; Route.MultiPath := [];
     Route.Protocol := 0; Route.Priority := 0;
     Route.Family := netlink.FAMILY_V4; Route.Table := 254;
     Route.Type_ := 1; Route.MTU := 0 |}.

Definition withOnLinkDefault : State :=
  {| links := [eth0; net1]; routes := [onLinkDefault eth0]; rules := [] |}.

(** [default via 2001:db8::1 dev <link>]: a v6 default route of one nexthop. *)
Definition default6 (link : Link.t) : Route.t :=
  {| Route.LinkIndex := Link.Index link; Route.Scope := 0; Route.Dst := None;
     Route.Src := None; Route.Gw := gw6; Route.MultiPath := [];
     Route.Protocol := 0; Route.Priority := 1024;
     Route.Family := netlink.FAMILY_V6; Route.Table := 254;
     Route.Type_ := 1; Route.MTU := 0 |}.

Definition plainDefault6 : State :=
  {| links := [eth0; net1]; routes := [default6 eth0]; rules := [] |}.

(** A route to 10.0.0.0/24 by way of net1 as a segment, listed before a
    route of net1's own. *)
Definition segmentsTo10 : Route.t :=
  multipath (Some net10) netlink.FAMILY_V4 [hop net1 gw4].

(** [10.0.0.0/24 dev <link>] in the main table. *)
Definition to10 (link : Link.t) : Route.t :=
  {| Route.LinkIndex := Link.Index link; Route.Scope := 253;
     Route.Dst := Some net10; Route.Src := None; Route.Gw := None;
     Route.MultiPath := []; Route.Protocol := 2; Route.Priority := 0;
     Route.Family := netlink.FAMILY_V4; Route.Table := 254;
     Route.Type_ := 1; Route.MTU := 0 |}.

Definition withSegmentsTo10 : State :=
  {| links := [eth0; net1]; routes := [segmentsTo10; to10 net1];
     rules := [] |}.

(** A namespace that holds a rule [to 10.0.0.0/24 lookup 100] already. *)
Definition ruleTo10 : Rule.t :=
  {| Rule.Priority := 32765; Rule.Family := 0; Rule.Table := 100;
     Rule.Mark := -1; Rule.Src := None; Rule.Dst := Some net10 |}.

Definition withRuleTo10 : State :=
  {| links := [eth0; net1]; routes := []; rules := [ruleTo10] |}.

(** net1's default route in the main table, eth0's already in table 100. *)
Definition twoTables : State :=
  {| links := [eth0; net1];
     routes := [Route.setTable 100 (default4 eth0); default4 net1];
     rules := [] |}.

End Mock.


(* ================================================================== *)
(** * Properties *)

Unset Implicit Arguments.

(** ** Text forms of the addresses the specification names *)

Example IPNet_String_linkLocal64 :
  net.IPNet_String (Some linkLocal64) = "fe80::/64".
Proof. vm_compute. reflexivity. Qed.

Example IPNet_String_nil : net.IPNet_String None = "<nil>".
Proof. reflexivity. Qed.

Example IP_String_2001_db8__1 :
  net.IP_String ip_2001_db8__1 = "2001:db8::1".
Proof. vm_compute. reflexivity. Qed.

Example IP_String_192_0_2_1 :
  net.IP_String (net.IPv4 xc0 x00 x02 x01) = "192.0.2.1".
Proof. vm_compute. reflexivity. Qed.

Lemma bytes_eqb_eq (a b : list byte) : net.bytes_eqb a b = true <-> a = b.
Proof.
  unfold net.bytes_eqb. destruct (list_eq_dec Byte.byte_eq_dec a b);
    split; congruence.
Qed.

(** [ip.Equal(net.IPv4zero)] holds of the all-zeros IPv4 address, in its
    4-byte and in its 16-byte form, and of nothing else. *)
Lemma Equal_IPv4zero (ip : net.IP) :
  net.Equal ip net.IPv4zero = true
  <-> ip = Some [x00; x00; x00; x00] \/ ip = net.IPv4zero.
Proof.
  split.
  - unfold net.Equal, net.IPv4zero, net.IPv4.
    set (zero16 := (net.v4InV6Prefix ++ [x00; x00; x00; x00])%list).
    destruct ip as [bs|]; [|discriminate].
    change (List.length zero16) with 16%nat.
    destruct (Nat.eqb (List.length bs) 16) eqn:E16.
    + intros H. apply bytes_eqb_eq in H. right. congruence.
    + destruct (Nat.eqb (List.length bs) net.IPv4len) eqn:E4; cbn [andb].
      * change (Nat.eqb 16 net.IPv6len) with true. cbv iota.
        intros H. apply andb_true_iff in H as [_ H].
        apply bytes_eqb_eq in H. left. rewrite H. reflexivity.
      * rewrite andb_false_r. discriminate.
  - intros [->| ->]; reflexivity.
Qed.

(** [isDefault]: the destination is nil or the all-zeros IPv4 address. *)
Lemma isDefault_iff (dst : option net.IPNet) :
  isDefault dst = true
  <-> dst = None
      \/ exists n, dst = Some n
                   /\ (net.IP_ n = Some [x00; x00; x00; x00]
                       \/ net.IP_ n = net.IPv4zero).
Proof.
  destruct dst as [n|]; cbn.
  - rewrite Equal_IPv4zero. split.
    + intros H. right. exists n. auto.
    + intros [H|[n' [H1 H2]]]; [discriminate|]. inversion H1; subst. exact H2.
  - split; auto.
Qed.

(** ** The monad *)

Section Steps.

Context {K error : Type} {nl : Netlink K error}.

Lemma submit_run (c : Call) (op : K -> option error * K) (w : World K) :
  submit c op w
  = (Ok (fst (op (kernel w))),
     {| kernel := snd (op (kernel w)); calls := (calls w ++ [c])%list |}).
Proof. unfold submit. destruct (op (kernel w)); reflexivity. Qed.

Lemma read_ok {A} (q : K -> error + A) (w : World K) (a : A) :
  q (kernel w) = inr a -> read q w = (Ok a, w).
Proof. unfold read. intros ->. reflexivity. Qed.

Lemma read_fail {A} (q : K -> error + A) (w : World K) (e : error) :
  q (kernel w) = inl e -> read q w = (Fail (Verbatim e), w).
Proof. unfold read. intros ->. reflexivity. Qed.

Lemma bind_ok {A B} (c : M K error A) (f : A -> M K error B) w a w' :
  c w = (Ok a, w') -> bind c f w = f a w'.
Proof. unfold bind. intros ->. reflexivity. Qed.

Lemma bind_fail {A B} (c : M K error A) (f : A -> M K error B) w e w' :
  c w = (Fail e, w') -> bind c f w = (Fail e, w').
Proof. unfold bind. intros ->. reflexivity. Qed.

(** [AddRoute] once the link is resolved and the gateway chosen. *)
Lemma AddRoute_run ruleTable ipFamily scope iface dst v4Gw v6Gw
      (w : World K) link route :
  LinkByName iface (kernel w) = inr link ->
  @selectGateway K error ipFamily dst v4Gw v6Gw
    {| Route.LinkIndex := Link.Index link; Route.Scope := scope;
       Route.Dst := dst; Route.Src := None; Route.Gw := None;
       Route.MultiPath := []; Route.Protocol := 0; Route.Priority := 0;
       Route.Family := 0; Route.Table := ruleTable; Route.Type_ := 0;
       Route.MTU := 0 |} w = (Ok route, w) ->
  AddRoute ruleTable ipFamily scope iface dst v4Gw v6Gw w
  = (match fst (RouteAdd route (kernel w)) with
     | Some e => if IsExist e then Ok tt
                 else Fail (FailedAddRouteTable route e)
     | None => Ok tt
     end,
     {| kernel := snd (RouteAdd route (kernel w));
        calls := (calls w ++ [CRouteAdd route])%list |}).
Proof.
  intros Hlink Hsel. unfold AddRoute.
  erewrite bind_ok by (apply read_ok, Hlink).
  erewrite bind_ok by (exact Hsel).
  unfold netlink_RouteAdd.
  erewrite bind_ok by (apply submit_run).
  destruct (fst (RouteAdd route (kernel w))) as [e|]; [|reflexivity].
  destruct (IsExist e); reflexivity.
Qed.

Lemma selectGateway_state ipFamily dst v4Gw v6Gw route (w : World K) :
  snd (@selectGateway K error ipFamily dst v4Gw v6Gw route w) = w.
Proof.
  unfold selectGateway.
  repeat match goal with |- context [if ?b then _ else _] => destruct b end;
    reflexivity.
Qed.

Lemma selectGateway_world ipFamily dst v4Gw v6Gw route (w w' : World K) :
  fst (@selectGateway K error ipFamily dst v4Gw v6Gw route w')
  = fst (@selectGateway K error ipFamily dst v4Gw v6Gw route w).
Proof.
  unfold selectGateway.
  repeat match goal with |- context [if ?b then _ else _] => destruct b end;
    reflexivity.
Qed.

Lemma selectGateway_V4 dst v4Gw v6Gw link scope ruleTable (w : World K) :
  @selectGateway K error netlink.FAMILY_V4 dst v4Gw v6Gw
    (baseRoute link scope dst ruleTable None) w
  = (Ok (baseRoute link scope dst ruleTable v4Gw), w).
Proof. destruct v4Gw; reflexivity. Qed.

Lemma selectGateway_V6 dst v4Gw v6Gw link scope ruleTable (w : World K) :
  @selectGateway K error netlink.FAMILY_V6 dst v4Gw v6Gw
    (baseRoute link scope dst ruleTable None) w
  = (Ok (baseRoute link scope dst ruleTable v6Gw), w).
Proof. destruct v6Gw; reflexivity. Qed.

Lemma selectGateway_ALL dst v4Gw v6Gw link scope ruleTable (w : World K) :
  @selectGateway K error netlink.FAMILY_ALL dst v4Gw v6Gw
    (baseRoute link scope dst ruleTable None) w
  = (Ok (baseRoute link scope dst ruleTable
           match dst with
           | None => None
           | Some _ => if parsesAsIPv4 dst then v4Gw else v6Gw
           end), w).
Proof.
  unfold selectGateway, dstIs4, dstIsNot4, parsesAsIPv4. cbn [Z.eqb netlink.FAMILY_ALL
    netlink.FAMILY_V4 netlink.FAMILY_V6].
  destruct dst as [n|]; [|reflexivity].
  destruct (net.To4 (net.IP_ n)); destruct v4Gw; destruct v6Gw; reflexivity.
Qed.

Lemma selectGateway_other ipFamily dst v4Gw v6Gw route (w : World K) :
  ipFamily <> netlink.FAMILY_V4 -> ipFamily <> netlink.FAMILY_V6 ->
  ipFamily <> netlink.FAMILY_ALL ->
  @selectGateway K error ipFamily dst v4Gw v6Gw route w
  = (Fail (UnknownIpFamily ipFamily), w).
Proof.
  intros H4 H6 H0. unfold selectGateway.
  apply Z.eqb_neq in H4, H6, H0. rewrite H4, H6, H0. reflexivity.
Qed.

Lemma AddRoute_submits ruleTable ipFamily scope iface dst v4Gw v6Gw
      (w : World K) link gw :
  LinkByName iface (kernel w) = inr link ->
  @selectGateway K error ipFamily dst v4Gw v6Gw
    (baseRoute link scope dst ruleTable None) w
  = (Ok (baseRoute link scope dst ruleTable gw), w) ->
  calls (snd (AddRoute ruleTable ipFamily scope iface dst v4Gw v6Gw w))
  = (calls w ++ [CRouteAdd (baseRoute link scope dst ruleTable gw)])%list.
Proof.
  intros Hlink Hsel. erewrite AddRoute_run; [reflexivity|exact Hlink|exact Hsel].
Qed.

End Steps.

(** ** Rules *)

(** C8. [AddRuleTableWithMark] submits exactly one policy rule: a fresh rule
    with the given mark, table and family and the priority 1000. *)
Theorem AddRuleTableWithMark_submits_one_rule :
  forall (K error : Type) (nl : Netlink K error)
         (mark ruleTable ipFamily : Z) (w : World K),
  exists rule,
    calls (snd (AddRuleTableWithMark mark ruleTable ipFamily w))
    = (calls w ++ [CRuleAdd rule])%list
    /\ Rule.Mark rule = mark
    /\ Rule.Table rule = ruleTable
    /\ Rule.Family rule = ipFamily
    /\ Rule.Priority rule = 1000
    /\ Rule.Src rule = Rule.Src NewRule
    /\ Rule.Dst rule = Rule.Dst NewRule.
Proof.
  intros. eexists.
  unfold AddRuleTableWithMark, verbatim, netlink_RuleAdd.
  erewrite bind_ok by (apply submit_run).
  split.
  - destruct (fst (RuleAdd _ (kernel w))); reflexivity.
  - repeat split.
Qed.

(** ** Adding a route *)

(** C3, as the code has it. With the interface resolved, [AddRoute] submits
    one route on the link, with the scope, destination and table given, and
    the gateway [ipv4Gateway] for v4, [ipv6Gateway] for v6, and for "both":
    none when the destination is nil, [ipv4Gateway] when the destination
    parses as an IPv4 address, [ipv6Gateway] otherwise. Any other family
    fails with the unknown-family error and nothing is submitted. *)
Theorem AddRoute_gateway_by_family :
  forall (K error : Type) (nl : Netlink K error)
         (ruleTable ipFamily scope : Z) (iface : string)
         (dst : option net.IPNet) (v4Gw v6Gw : net.IP)
         (w : World K) (link : Link.t),
  LinkByName iface (kernel w) = inr link ->
  let out := AddRoute ruleTable ipFamily scope iface dst v4Gw v6Gw w in
  let submits (gw : net.IP) :=
    calls (snd out)
    = (calls w ++ [CRouteAdd (baseRoute link scope dst ruleTable gw)])%list in
  (ipFamily = netlink.FAMILY_V4 -> submits v4Gw)
  /\ (ipFamily = netlink.FAMILY_V6 -> submits v6Gw)
  /\ (ipFamily = netlink.FAMILY_ALL ->
      submits match dst with
              | None => None
              | Some _ => if parsesAsIPv4 dst then v4Gw else v6Gw
              end)
  /\ (ipFamily <> netlink.FAMILY_V4 -> ipFamily <> netlink.FAMILY_V6 ->
      ipFamily <> netlink.FAMILY_ALL ->
      out = (Fail (UnknownIpFamily ipFamily), w)).
Proof.
  intros K error nl ruleTable ipFamily scope iface dst v4Gw v6Gw w link Hlink.
  cbv zeta. repeat split.
  - intros ->. eapply AddRoute_submits; [exact Hlink|apply selectGateway_V4].
  - intros ->. eapply AddRoute_submits; [exact Hlink|apply selectGateway_V6].
  - intros ->. eapply AddRoute_submits; [exact Hlink|apply selectGateway_ALL].
  - intros H4 H6 H0. unfold AddRoute.
    erewrite bind_ok by (apply read_ok, Hlink).
    apply bind_fail, selectGateway_other; assumption.
Qed.

Lemma AddRoute_gateway_by_family_witness :
  LinkByName "eth0" (kernel (Mock.start Mock.bare)) = inr Mock.eth0
  /\ calls (snd (AddRoute 100 netlink.FAMILY_V6 0 "eth0" None Mock.gw4 Mock.gw6
                          (Mock.start Mock.bare)))
     = [CRouteAdd (baseRoute Mock.eth0 0 None 100 Mock.gw6)].
Proof.
  split; [reflexivity|].
  apply (@AddRoute_gateway_by_family _ _ Mock.netlinkOf
           100 netlink.FAMILY_V6 0 "eth0" None Mock.gw4 Mock.gw6
           (Mock.start Mock.bare) Mock.eth0 eq_refl).
  reflexivity.
Defined.

(** C3, as stated, fails: for "both" and a nil destination the specification
    selects [ipv6Gateway] (a nil destination does not parse as an IPv4
    address), and the route submitted carries no gateway. *)
Lemma AddRoute_both_nil_dst_not_spec_gateway :
  exists route,
    calls (snd (AddRoute 100 netlink.FAMILY_ALL 0 "eth0" None None Mock.gw6
                         (Mock.start Mock.bare)))
    = [CRouteAdd route]
    /\ Route.Gw route <> spec_gateway netlink.FAMILY_ALL None None Mock.gw6.
Proof.
  eexists. split.
  - vm_compute. reflexivity.
  - vm_compute. discriminate.
Qed.

(** C10. For "both" and a nil destination the submitted route carries no
    gateway, whatever gateways are supplied. *)
Theorem AddRoute_both_nil_dst_no_gateway :
  forall (K error : Type) (nl : Netlink K error)
         (ruleTable scope : Z) (iface : string) (v4Gw v6Gw : net.IP)
         (w : World K) (link : Link.t),
  LinkByName iface (kernel w) = inr link ->
  exists route,
    calls (snd (AddRoute ruleTable netlink.FAMILY_ALL scope iface None
                         v4Gw v6Gw w))
    = (calls w ++ [CRouteAdd route])%list
    /\ Route.Gw route = None.
Proof.
  intros K error nl ruleTable scope iface v4Gw v6Gw w link Hlink.
  exists (baseRoute link scope None ruleTable None). split; [|reflexivity].
  eapply AddRoute_submits; [exact Hlink|].
  apply (selectGateway_ALL None).
Qed.

Lemma AddRoute_both_nil_dst_no_gateway_witness :
  LinkByName "eth0" (kernel (Mock.start Mock.bare)) = inr Mock.eth0
  /\ exists route,
      calls (snd (AddRoute 100 netlink.FAMILY_ALL 0 "eth0" None
                           Mock.gw4 Mock.gw6 (Mock.start Mock.bare)))
      = ([] ++ [CRouteAdd route])%list
      /\ Route.Gw route = None.
Proof.
  split; [reflexivity|].
  apply (@AddRoute_both_nil_dst_no_gateway _ _ Mock.netlinkOf
           100 0 "eth0" Mock.gw4 Mock.gw6 (Mock.start Mock.bare)
           Mock.eth0).
  reflexivity.
Defined.

(** ** Lists *)

Lemma removeFirst_keeps {A} (p : A -> bool) (l : list A) (x : A) :
  In x l -> p x = false -> In x (removeFirst p l).
Proof.
  induction l as [|y l IH]; cbn; [tauto|].
  intros [->|Hin] Hp.
  - rewrite Hp. left. reflexivity.
  - destruct (p y); [assumption|]. right. auto.
Qed.

Lemma removeFirst_last {A} (p : A -> bool) (l : list A) (x : A) :
  existsb p l = false -> p x = true -> removeFirst p (l ++ [x]) = l.
Proof.
  induction l as [|y l IH]; cbn; intros Hl Hx.
  - rewrite Hx. reflexivity.
  - apply orb_false_iff in Hl as [Hy Hl]. rewrite Hy, IH; auto.
Qed.

Lemma replaceFirst_keeps {A} (p : A -> bool) (f : A -> A) (l : list A) (x : A) :
  In x l -> p x = false -> In x (replaceFirst p f l).
Proof.
  induction l as [|y l IH]; cbn; [tauto|].
  intros [->|Hin] Hp.
  - rewrite Hp. left. reflexivity.
  - destruct (p y); right; auto.
Qed.

Lemma app_one_neq {A} (l : list A) (x : A) : l <> (l ++ [x])%list.
Proof.
  intros H. apply (f_equal (@List.length A)) in H.
  rewrite length_app in H. cbn in H. lia.
Qed.

(** ** The small kernel keeps the laws *)

Lemma Mock_dst_eqb_refl (d : option net.IPNet) : Mock.dst_eqb d d = true.
Proof. unfold Mock.dst_eqb. destruct (net.Dst_eq_dec d d); congruence. Qed.

Lemma Mock_dst_eqb_neq (a b : option net.IPNet) :
  a <> b -> Mock.dst_eqb a b = false.
Proof. unfold Mock.dst_eqb. destruct (net.Dst_eq_dec a b); congruence. Qed.

Lemma Mock_sameEntry_refl (r : Route.t) : Mock.sameEntry r r = true.
Proof.
  unfold Mock.sameEntry. rewrite !Z.eqb_refl, Mock_dst_eqb_refl. reflexivity.
Qed.

Lemma removeFirst_middle {A} (p : A -> bool) (before after : list A) (x : A) :
  existsb p before = false -> p x = true ->
  removeFirst p (before ++ x :: after) = (before ++ after)%list.
Proof.
  induction before as [|y before IH]; cbn; intros Hb Hx.
  - rewrite Hx. reflexivity.
  - apply orb_false_iff in Hb as [Hy Hb]. rewrite Hy, IH; auto.
Qed.

Lemma existsb_false_forall {A} (p : A -> bool) (l : list A) :
  (forall x, In x l -> p x = false) -> existsb p l = false.
Proof.
  induction l as [|y l IH]; cbn; intros H; [reflexivity|].
  rewrite (H y (or_introl eq_refl)), IH; auto.
Qed.

Lemma Mock_dst_eqb_eq (a b : option net.IPNet) :
  Mock.dst_eqb a b = true -> a = b.
Proof. unfold Mock.dst_eqb. destruct (net.Dst_eq_dec a b); congruence. Qed.

Lemma Mock_unsetOr_refl (unset a : Z) : Mock.unsetOr unset a a = true.
Proof. unfold Mock.unsetOr. rewrite Z.eqb_refl. apply orb_true_r. Qed.

Lemma Mock_unsetOrNet_refl (a : option net.IPNet) : Mock.unsetOrNet a a = true.
Proof. destruct a; cbn; [apply Mock_dst_eqb_refl|reflexivity]. Qed.

Lemma Mock_insertRule_split (x : Rule.t) (held : list Rule.t) :
  exists before after,
    held = (before ++ after)%list
    /\ Mock.insertRule x held = (before ++ x :: after)%list.
Proof.
  induction held as [|y held IH]; cbn.
  - exists [], []. split; reflexivity.
  - destruct (Rule.Priority x <? Rule.Priority y).
    + exists [], (y :: held). split; reflexivity.
    + destruct IH as [before [after [H1 H2]]].
      exists (y :: before), after. cbn. rewrite <- H1, H2. split; reflexivity.
Qed.

Lemma Mock_selects_stored (r : Rule.t) (held : list Rule.t) :
  Mock.selectsRule r (Mock.storedRule r held) = true.
Proof.
  unfold Mock.selectsRule, Mock.storedRule.
  destruct (Rule.Priority r =? -1) eqn:E; cbn [Rule.setPriority Rule.Table
    Rule.Dst Rule.Src Rule.Priority Rule.Mark].
  - rewrite !Mock_unsetOr_refl, !Mock_unsetOrNet_refl.
    unfold Mock.unsetOr. rewrite E. reflexivity.
  - rewrite !Mock_unsetOr_refl, !Mock_unsetOrNet_refl. reflexivity.
Qed.

Lemma Mock_stored_fields (r : Rule.t) (held : list Rule.t) :
  Rule.Dst (Mock.storedRule r held) = Rule.Dst r
  /\ Rule.Src (Mock.storedRule r held) = Rule.Src r
  /\ Rule.Table (Mock.storedRule r held) = Rule.Table r.
Proof.
  unfold Mock.storedRule. destruct (Rule.Priority r =? -1); repeat split.
Qed.

#[global] Instance Mock_RouteLaws : RouteLaws Mock.netlinkOf Mock.view.
Proof.
  constructor; cbn.
  - intros a k k'. unfold Mock.routeAdd.
    destruct (existsb _ _); intros H; inversion H; reflexivity.
  - intros a k Hin. exists Mock.EEXIST. split; [|reflexivity].
    unfold Mock.routeAdd.
    replace (existsb (Mock.sameEntry a) (Mock.routes k)) with true; [reflexivity|].
    symmetry. apply existsb_exists. exists a. split; [assumption|].
    apply Mock_sameEntry_refl.
  - intros a k e k'. unfold Mock.routeAdd.
    destruct (existsb _ _); intros H; inversion H; reflexivity.
  - intros a k n. unfold Mock.routeAdd, Mock.linkByName.
    destruct (existsb _ _); reflexivity.
  - intros d k r Hin Hdst. unfold Mock.routeDel.
    pose proof (Mock_dst_eqb_neq _ _ (not_eq_sym Hdst)) as Hneq.
    destruct (existsb (Mock.selects d) _); cbn.
    + apply removeFirst_keeps; [assumption|].
      unfold Mock.selects. rewrite Hneq, andb_false_r. reflexivity.
    + destruct (existsb (Mock.carries d) _); cbn; [|assumption].
      apply replaceFirst_keeps; [assumption|].
      unfold Mock.carries. rewrite Hneq, andb_false_r. reflexivity.
Qed.

#[global] Instance Mock_RuleLaws : RuleLaws Mock.netlinkOf Mock.view.
Proof.
  constructor; cbn.
  - intros r k k'. unfold Mock.ruleAdd.
    destruct (existsb _ _); intros H; inversion H; subst; cbn.
    destruct (Mock_insertRule_split (Mock.storedRule r (Mock.rules k))
                (Mock.rules k)) as [before [after [Hheld Hins]]].
    destruct (Mock_stored_fields r (Mock.rules k)) as [Hd [Hs Ht]].
    exists (Mock.storedRule r (Mock.rules k)), before, after.
    repeat split; try assumption. apply Mock_selects_stored.
  - intros d k H. unfold Mock.ruleDel. rewrite H. eexists. split; reflexivity.
  - intros d x. unfold Mock.selectsRule, Mock.unsetOr, Mock.unsetOrNet.
    intros H. repeat (apply andb_true_iff in H as [H ?]).
    repeat split.
    + intros Hd. destruct (Rule.Dst d); [|contradiction].
      symmetry. apply Mock_dst_eqb_eq. assumption.
    + intros Hs. destruct (Rule.Src d); [|contradiction].
      symmetry. apply Mock_dst_eqb_eq. assumption.
    + intros Ht. apply orb_true_iff in H as [H|H].
      * apply Z.eqb_eq in H. contradiction.
      * apply Z.eqb_eq in H. congruence.
Qed.

(** ** Adding and deleting a destination rule *)

Section RuleSteps.

Context {K error : Type} {nl : Netlink K error}.

Lemma verbatim_run (c : Call) (op : K -> option error * K) (w : World K) :
  verbatim (submit c op) w
  = (match fst (op (kernel w)) with
     | Some e => Fail (Verbatim e)
     | None => Ok tt
     end,
     {| kernel := snd (op (kernel w)); calls := (calls w ++ [c])%list |}).
Proof.
  unfold verbatim. erewrite bind_ok by (apply submit_run).
  destruct (fst (op (kernel w))); reflexivity.
Qed.

End RuleSteps.

(** What the two calls come to, whatever the kernel answers. *)
Lemma AddToRuleTable_DelToRuleTable_run
      (K error : Type) (nl : Netlink K error)
      (dst : option net.IPNet) (ruleTable0 : Z) (w : World K) :
  let rule := Rule.setDst dst (Rule.setTable ruleTable0 NewRule) in
  AddToRuleTable dst ruleTable0 w
  = (match fst (RuleAdd rule (kernel w)) with
     | Some e => Fail (Verbatim e)
     | None => Ok tt
     end, after (CRuleAdd rule) w)
  /\ DelToRuleTable dst ruleTable0 (after (CRuleAdd rule) w)
     = (match fst (RuleDel rule (kernel (after (CRuleAdd rule) w))) with
        | Some e => Fail (Verbatim e)
        | None => Ok tt
        end, after (CRuleDel rule) (after (CRuleAdd rule) w)).
Proof.
  cbv zeta. unfold AddToRuleTable, DelToRuleTable, netlink_RuleAdd,
    netlink_RuleDel. rewrite !verbatim_run. split; reflexivity.
Qed.

(** Adding a rule the kernel holds none like, then deleting by the same
    descriptor, gives back the rules held before. *)
Lemma RuleAdd_then_RuleDel
      (K error : Type) (nl : Netlink K error) (kv : KernelView K)
      (laws : RuleLaws nl kv) (rule : Rule.t) (k k1 : K) :
  RuleAdd rule k = (None, k1) ->
  (forall y, In y (ruleTable k) -> ruleMatch rule y = false) ->
  exists k2, RuleDel rule k1 = (None, k2) /\ ruleTable k2 = ruleTable k.
Proof.
  intros Ea Hnone.
  destruct (RuleAdd_ok _ _ Ea)
    as [stored [before [after_ [Hheld [Hnow [_ [_ [_ Hsel]]]]]]]].
  assert (Hbefore : existsb (ruleMatch rule) before = false).
  { apply existsb_false_forall. intros y Hy. apply Hnone.
    rewrite Hheld. apply in_or_app. left. exact Hy. }
  assert (Hsome : existsb (ruleMatch rule) (ruleTable k1) = true).
  { rewrite Hnow, existsb_app. cbn. rewrite Hsel.
    rewrite orb_true_l. apply orb_true_r. }
  destruct (RuleDel_first _ _ Hsome) as [k2 [Ed Htab2]].
  exists k2. split; [exact Ed|].
  rewrite Htab2, Hnow, Hheld. apply removeFirst_middle; assumption.
Qed.

(** C9, as the code and the kernel have it. [DelToRuleTable] submits the
    very descriptor [AddToRuleTable] submits for the same destination and
    table: a fresh rule with just these two set. For a destination that is
    not nil and a table that is not 0, when the kernel holds no rule with
    that destination and table before a successful add, the delete that
    follows succeeds and the rules held are again those from before the add,
    none of them with that destination and table. *)
Theorem AddToRuleTable_then_DelToRuleTable :
  forall (K error : Type) (nl : Netlink K error) (kv : KernelView K),
  RuleLaws nl kv ->
  forall (dst : option net.IPNet) (ruleTable0 : Z) (w : World K),
  let added := AddToRuleTable dst ruleTable0 w in
  let deleted := DelToRuleTable dst ruleTable0 (snd added) in
  (exists rule,
      calls (snd deleted) = (calls w ++ [CRuleAdd rule; CRuleDel rule])%list
      /\ Rule.Dst rule = dst
      /\ Rule.Table rule = ruleTable0
      /\ Rule.Src rule = Rule.Src NewRule
      /\ Rule.Mark rule = Rule.Mark NewRule
      /\ Rule.Priority rule = Rule.Priority NewRule)
  /\ (dst <> None ->
      ruleTable0 <> 0 ->
      (forall y, In y (ruleTable (kernel w)) ->
                 ~ (Rule.Dst y = dst /\ Rule.Table y = ruleTable0)) ->
      fst added = Ok tt ->
      fst deleted = Ok tt
      /\ ruleTable (kernel (snd deleted)) = ruleTable (kernel w)
      /\ (forall x, In x (ruleTable (kernel (snd deleted))) ->
                    ~ (Rule.Dst x = dst /\ Rule.Table x = ruleTable0))).
Proof.
  intros K error nl kv laws dst t w added deleted. subst added deleted.
  destruct (AddToRuleTable_DelToRuleTable_run K error nl dst t w)
    as [Hadd Hdel]. cbv zeta in Hadd, Hdel.
  set (rule := Rule.setDst dst (Rule.setTable t NewRule)) in *.
  rewrite Hadd. cbn [snd]. rewrite Hdel. cbn [fst snd]. split.
  - exists rule. cbn [after calls]. rewrite <- app_assoc.
    repeat split.
  - intros Hdst Ht Hnone.
    destruct (RuleAdd rule (kernel w)) as [[e|] k1] eqn:Ea; cbn [fst];
      [discriminate|]. intros _.
    assert (Hsel : forall y, In y (ruleTable (kernel w)) ->
                             ruleMatch rule y = false).
    { intros y Hy. destruct (ruleMatch rule y) eqn:Hm; [|reflexivity].
      destruct (ruleMatch_fields _ _ Hm) as [Hd [_ Htab]].
      destruct (Hnone y Hy). split; [apply Hd, Hdst|apply Htab, Ht]. }
    destruct (RuleAdd_then_RuleDel K error nl kv laws rule (kernel w) k1
                Ea Hsel) as [k2 [Ed Hback]].
    cbn [after kernel]. rewrite Ea. cbn [snd]. rewrite Ed. cbn [fst snd].
    split; [reflexivity|]. split; [exact Hback|].
    intros x Hx. apply Hnone. rewrite <- Hback. exact Hx.
Qed.

Lemma AddToRuleTable_then_DelToRuleTable_witness :
  fst (AddToRuleTable (Some Mock.net10) 100 (Mock.start Mock.bare)) = Ok tt
  /\ fst (DelToRuleTable (Some Mock.net10) 100
            (snd (AddToRuleTable (Some Mock.net10) 100
                                 (Mock.start Mock.bare)))) = Ok tt
  /\ Mock.rules
       (kernel (snd (DelToRuleTable (Some Mock.net10) 100
                       (snd (AddToRuleTable (Some Mock.net10) 100
                               (Mock.start Mock.bare))))))
     = [].
Proof.
  split; [reflexivity|].
  destruct (proj2 (@AddToRuleTable_then_DelToRuleTable _ _ Mock.netlinkOf
                     Mock.view Mock_RuleLaws (Some Mock.net10) 100
                     (Mock.start Mock.bare))
                  ltac:(discriminate) ltac:(discriminate)
                  ltac:(intros y []) eq_refl) as [Hok [Hback _]].
  split; [exact Hok|exact Hback].
Defined.

(** C9, as stated, fails: a rule is given no priority, so the kernel takes
    the add also when it holds such a rule already; the delete then removes
    one of the two and a rule with that destination and table remains. *)
Lemma AddToRuleTable_then_DelToRuleTable_leaves_rule :
  fst (AddToRuleTable (Some Mock.net10) 100 (Mock.start Mock.withRuleTo10))
  = Ok tt
  /\ fst (DelToRuleTable (Some Mock.net10) 100
            (snd (AddToRuleTable (Some Mock.net10) 100
                                 (Mock.start Mock.withRuleTo10)))) = Ok tt
  /\ exists x,
      In x (Mock.rules
              (kernel (snd (DelToRuleTable (Some Mock.net10) 100
                              (snd (AddToRuleTable (Some Mock.net10) 100
                                      (Mock.start Mock.withRuleTo10)))))))
      /\ Rule.Dst x = Some Mock.net10
      /\ Rule.Table x = 100.
Proof.
  split; [vm_compute; reflexivity|]. split; [vm_compute; reflexivity|].
  exists Mock.ruleTo10. split; [vm_compute; left; reflexivity|].
  split; reflexivity.
Qed.

(** ** Adding a route twice *)

Section AddTwice.

Context {K error : Type} {nl : Netlink K error}.

Lemma selectGateway_at ipFamily dst v4Gw v6Gw route (w w' : World K) x :
  @selectGateway K error ipFamily dst v4Gw v6Gw route w = (x, w) ->
  @selectGateway K error ipFamily dst v4Gw v6Gw route w' = (x, w').
Proof.
  intros H.
  pose proof (selectGateway_world (error := error)
                ipFamily dst v4Gw v6Gw route w w') as Hf.
  pose proof (@selectGateway_state K error ipFamily dst v4Gw v6Gw route w') as Hs.
  rewrite H in Hf. cbn in Hf.
  destruct (selectGateway ipFamily dst v4Gw v6Gw route w') as [x' w''].
  cbn in Hf, Hs. subst. reflexivity.
Qed.

Lemma selectGateway_cases ipFamily dst v4Gw v6Gw route (w : World K) :
  exists x, @selectGateway K error ipFamily dst v4Gw v6Gw route w = (x, w).
Proof.
  pose proof (@selectGateway_state K error ipFamily dst v4Gw v6Gw route w) as Hs.
  destruct (selectGateway ipFamily dst v4Gw v6Gw route w) as [x w'].
  cbn in Hs. subst. eexists. reflexivity.
Qed.

(** A second identical add is answered with "exists". *)
Lemma RouteAdd_again (kv : KernelView K) (laws : RouteLaws nl kv)
      (route : Route.t) (k : K) :
  match fst (RouteAdd route k) with
  | None => True
  | Some e => IsExist e = true
  end ->
  exists e, fst (RouteAdd route (snd (RouteAdd route k))) = Some e
            /\ IsExist e = true.
Proof.
  destruct (RouteAdd route k) as [[e|] k1] eqn:E; cbn [fst snd]; intros H.
  - rewrite (RouteAdd_failed _ _ E), E. exists e. auto.
  - assert (Hin : In route (routeTable k1)).
    { rewrite (RouteAdd_ok _ _ E). apply in_or_app. right. left. reflexivity. }
    destruct (RouteAdd_present _ _ Hin) as [e [E' He]].
    rewrite E'. exists e. auto.
Qed.

End AddTwice.

(** C5. With the interface resolved and one of the three families given,
    [AddRoute] submits its route and returns by the kernel's answer alone:
    success when the kernel accepts the route, success as well when it
    answers that the route exists, and for any other answer the add failure
    carrying the route and the kernel's error. So a call that succeeded
    succeeds again when it is made again with the same arguments. *)
Theorem AddRoute_twice_succeeds :
  forall (K error : Type) (nl : Netlink K error) (kv : KernelView K),
  RouteLaws nl kv ->
  forall (ruleTable0 ipFamily scope : Z) (iface : string)
         (dst : option net.IPNet) (v4Gw v6Gw : net.IP) (w : World K),
  let first := AddRoute ruleTable0 ipFamily scope iface dst v4Gw v6Gw w in
  (fst first = Ok tt ->
   fst (AddRoute ruleTable0 ipFamily scope iface dst v4Gw v6Gw (snd first))
   = Ok tt)
  /\ (forall link,
         LinkByName iface (kernel w) = inr link ->
         ipFamily = netlink.FAMILY_V4 \/ ipFamily = netlink.FAMILY_V6
         \/ ipFamily = netlink.FAMILY_ALL ->
         let route :=
           baseRoute link scope dst ruleTable0
             (if ipFamily =? netlink.FAMILY_V4 then v4Gw
              else if ipFamily =? netlink.FAMILY_V6 then v6Gw
              else match dst with
                   | None => None
                   | Some _ => if parsesAsIPv4 dst then v4Gw else v6Gw
                   end) in
         first
         = (match fst (RouteAdd route (kernel w)) with
            | None => Ok tt
            | Some e => if IsExist e then Ok tt
                        else Fail (FailedAddRouteTable route e)
            end,
            after (CRouteAdd route) w)).
Proof.
  intros K error nl kv laws t ipFamily scope iface dst v4Gw v6Gw w first.
  subst first. split.
  - destruct (LinkByName iface (kernel w)) as [e|link] eqn:Hlink.
    { unfold AddRoute. erewrite bind_fail by (apply read_fail, Hlink).
      discriminate. }
    destruct (selectGateway_cases (error := error) ipFamily dst v4Gw v6Gw
                (baseRoute link scope dst t None) w) as [[route0|e] Hsel].
    2:{ unfold AddRoute. erewrite bind_ok by (apply read_ok, Hlink).
        erewrite bind_fail by (exact Hsel). discriminate. }
    erewrite AddRoute_run; [|exact Hlink|exact Hsel]. cbn [fst snd].
    intros Hfirst.
    set (w1 := {| kernel := snd (RouteAdd route0 (kernel w));
                  calls := (calls w ++ [CRouteAdd route0])%list |}).
    assert (Hlink1 : LinkByName iface (kernel w1) = inr link).
    { cbn. rewrite RouteAdd_links. exact Hlink. }
    erewrite AddRoute_run;
      [|exact Hlink1|apply (selectGateway_at _ _ _ _ _ w), Hsel].
    cbn [fst kernel w1].
    destruct (RouteAdd_again kv laws route0 (kernel w)) as [e [-> He]].
    + destruct (fst (RouteAdd route0 (kernel w))) as [e|]; [|exact I].
      destruct (IsExist e); [reflexivity|discriminate].
    + rewrite He. reflexivity.
  - intros link Hlink Hfam. cbv zeta.
    erewrite AddRoute_run; [reflexivity|exact Hlink|].
    destruct Hfam as [->|[->| ->]].
    + apply selectGateway_V4.
    + apply selectGateway_V6.
    + apply selectGateway_ALL.
Qed.

Lemma AddRoute_twice_succeeds_witness :
  fst (AddRoute 100 netlink.FAMILY_V4 0 "eth0" (Some Mock.net10)
                Mock.gw4 None (Mock.start Mock.bare)) = Ok tt
  /\ fst (AddRoute 100 netlink.FAMILY_V4 0 "eth0" (Some Mock.net10)
                   Mock.gw4 None
                   (snd (AddRoute 100 netlink.FAMILY_V4 0 "eth0"
                                  (Some Mock.net10) Mock.gw4 None
                                  (Mock.start Mock.bare)))) = Ok tt.
Proof.
  split; [reflexivity|].
  apply (proj1 (@AddRoute_twice_succeeds _ _ Mock.netlinkOf Mock.view
                  Mock_RouteLaws 100 netlink.FAMILY_V4 0 "eth0"
                  (Some Mock.net10) Mock.gw4 None (Mock.start Mock.bare))).
  reflexivity.
Defined.

(** ** Default gateways of an interface *)

Section Gateways.

Context {K error : Type} {nl : Netlink K error}.

Lemma segmentGateway_first index mp gws :
  segmentGateway index mp gws
  = (gws ++ match segmentOn index mp with
            | Some v => [net.IP_String (NexthopInfo.Gw v)]
            | None => []
            end)%list.
Proof.
  induction mp as [|v mp IH]; cbn.
  - rewrite app_nil_r. reflexivity.
  - destruct (NexthopInfo.LinkIndex v =? index); [reflexivity|apply IH].
Qed.

Lemma collectGateways_flat index routes gws :
  collectGateways index routes gws
  = (gws ++ flat_map (gatewaysOf index) routes)%list.
Proof.
  revert gws. induction routes as [|route routes IH]; intros gws; cbn.
  - rewrite app_nil_r. reflexivity.
  - rewrite IH, app_assoc. f_equal. unfold gatewaysOf.
    destruct (Route.LinkIndex route =? index).
    + destruct (isDefault (Route.Dst route)); [reflexivity|].
      rewrite app_nil_r. reflexivity.
    + destruct (Route.MultiPath route) as [|v mp] eqn:E.
      * cbn. rewrite app_nil_r. reflexivity.
      * cbn [List.length Nat.ltb Nat.leb]. apply segmentGateway_first.
Qed.

Lemma GetRoutesByName_all ipfamily (w : World K) :
  GetRoutesByName "" ipfamily w = read (RouteList None ipfamily) w.
Proof.
  unfold GetRoutesByName. cbn. unfold bind, ret.
  destruct (read (RouteList None ipfamily) w) as [[a|e] w']; reflexivity.
Qed.

Lemma flat_map_nil {A B} (f : A -> list B) (l : list A) :
  Forall (fun x => f x = []) l -> flat_map f l = [].
Proof. induction 1 as [|x l Hx _ IH]; cbn; [|rewrite Hx, IH]; reflexivity. Qed.

End Gateways.

(** What [GetDefaultGatewayByName] returns for any list of routes at all,
    route by route: the text of the route's own gateway when its link is
    the interface's and it is a default route; the text of the gateway of
    the first segment on the interface when the route's link is another
    one. *)
Theorem GetDefaultGatewayByName_collects :
  forall (K error : Type) (nl : Netlink K error)
         (iface : string) (ipfamily : Z) (w : World K)
         (link : Link.t) (routes : list Route.t),
  LinkByName iface (kernel w) = inr link ->
  RouteList None ipfamily (kernel w) = inr routes ->
  GetDefaultGatewayByName iface ipfamily w
  = (Ok (flat_map (gatewaysOf (Link.Index link)) routes), w)
  /\ (forall before shared after v,
         routes = (before ++ shared :: after)%list ->
         Forall (fun r => Route.LinkIndex r <> Link.Index link
                          /\ segmentOn (Link.Index link) (Route.MultiPath r) = None)
                (before ++ after) ->
         Route.LinkIndex shared <> Link.Index link ->
         segmentOn (Link.Index link) (Route.MultiPath shared) = Some v ->
         NexthopInfo.Gw v = ip_2001_db8__1 ->
         GetDefaultGatewayByName iface ipfamily w = (Ok ["2001:db8::1"], w)).
Proof.
  intros K error nl iface ipfamily w link routes Hlink Hlist.
  assert (Hrun : GetDefaultGatewayByName iface ipfamily w
                 = (Ok (flat_map (gatewaysOf (Link.Index link)) routes), w)).
  { unfold GetDefaultGatewayByName.
    erewrite bind_ok by (rewrite GetRoutesByName_all; apply read_ok, Hlist).
    erewrite bind_ok by (apply read_ok, Hlink).
    unfold ret. rewrite collectGateways_flat. reflexivity. }
  split; [exact Hrun|].
  intros before shared after v -> Hothers Hshared Hseg Hgw.
  rewrite Hrun. do 2 f_equal.
  assert (Hquiet : forall l,
             Forall (fun r => Route.LinkIndex r <> Link.Index link
                              /\ segmentOn (Link.Index link) (Route.MultiPath r) = None) l ->
             flat_map (gatewaysOf (Link.Index link)) l = []).
  { intros l Hl. apply flat_map_nil. eapply Forall_impl; [|exact Hl].
    intros r [Hr Hs]. unfold gatewaysOf.
    apply Z.eqb_neq in Hr. rewrite Hr, Hs. reflexivity. }
  apply Forall_app in Hothers as [Hb Ha].
  rewrite flat_map_app. cbn [flat_map].
  rewrite (Hquiet _ Hb), (Hquiet _ Ha). cbn [app]. rewrite app_nil_r.
  unfold gatewaysOf. apply Z.eqb_neq in Hshared. rewrite Hshared, Hseg, Hgw.
  rewrite IP_String_2001_db8__1. reflexivity.
Qed.

Lemma GetDefaultGatewayByName_collects_witness :
  LinkByName "net1" (kernel (Mock.start Mock.sharedDefault6)) = inr Mock.net1
  /\ RouteList None netlink.FAMILY_V6 (kernel (Mock.start Mock.sharedDefault6))
     = inr (Mock.routes Mock.sharedDefault6)
  /\ GetDefaultGatewayByName "net1" netlink.FAMILY_V6
       (Mock.start Mock.sharedDefault6)
     = (Ok ["2001:db8::1"], Mock.start Mock.sharedDefault6).
Proof.
  split; [reflexivity|]. split; [reflexivity|].
  refine (proj2 (@GetDefaultGatewayByName_collects _ _ Mock.netlinkOf
                   "net1" netlink.FAMILY_V6 (Mock.start Mock.sharedDefault6)
                   Mock.net1 (Mock.routes Mock.sharedDefault6)
                   eq_refl eq_refl)
                [] _ [] (Mock.hop Mock.net1 Mock.gw6) eq_refl _ _ eq_refl eq_refl).
  - constructor.
  - cbn. discriminate.
Defined.

(** Why the listed routes are taken to keep the data model's invariant: for
    a route bound to the interface by its own link and by a segment as well,
    which no kernel lists, the specification's reading and the code part. *)
Lemma GetDefaultGatewayByName_not_spec_gateways :
  RouteList None netlink.FAMILY_V4 (kernel (Mock.start Mock.withOnLinkSegments))
  = inr [Mock.onLinkSegments]
  /\ fst (GetDefaultGatewayByName "eth0" netlink.FAMILY_V4
            (Mock.start Mock.withOnLinkSegments)) = Ok []
  /\ flat_map (spec_gatewaysOf (Link.Index Mock.eth0)) [Mock.onLinkSegments]
     = ["10.1.1.1"].
Proof. repeat split; vm_compute; reflexivity. Qed.

Lemma gatewaysOf_as_specified (index : Z) (r : Route.t) :
  segmentsUnbound index r -> gatewaysOf index r = spec_gatewaysOf index r.
Proof.
  unfold segmentsUnbound, gatewaysOf, spec_gatewaysOf. intros Hinv.
  destruct (Route.LinkIndex r =? index) eqn:E; cbn [andb]; [|reflexivity].
  destruct (isDefault (Route.Dst r)); [reflexivity|].
  destruct (Route.MultiPath r) as [|v mp]; [reflexivity|].
  apply Z.eqb_eq in E. destruct (Hinv ltac:(discriminate) E).
Qed.

(** C2. [GetDefaultGatewayByName] lists the routes of every interface for
    the family and, the listed routes keeping the data model's invariant (a
    route with segments is not bound to the interface by a link of its own),
    returns exactly the gateways the specification collects, route by route:
    the route's own gateway for a route on the interface's link whose
    destination is nil or the all-zeros IPv4 address, and for each other
    route the gateway of the first segment on the interface. So an
    interface that is only one nexthop, with gateway 2001:db8::1, of a
    shared multipath default route gets ["2001:db8::1"]. *)
Theorem GetDefaultGatewayByName_as_specified :
  forall (K error : Type) (nl : Netlink K error)
         (iface : string) (ipfamily : Z) (w : World K)
         (link : Link.t) (routes : list Route.t),
  LinkByName iface (kernel w) = inr link ->
  RouteList None ipfamily (kernel w) = inr routes ->
  Forall (segmentsUnbound (Link.Index link)) routes ->
  GetDefaultGatewayByName iface ipfamily w
  = (Ok (flat_map (spec_gatewaysOf (Link.Index link)) routes), w)
  /\ (forall before shared after v,
         routes = (before ++ shared :: after)%list ->
         Forall (fun r => Route.LinkIndex r <> Link.Index link
                          /\ segmentOn (Link.Index link) (Route.MultiPath r) = None)
                (before ++ after) ->
         segmentOn (Link.Index link) (Route.MultiPath shared) = Some v ->
         NexthopInfo.Gw v = ip_2001_db8__1 ->
         GetDefaultGatewayByName iface ipfamily w = (Ok ["2001:db8::1"], w)).
Proof.
  intros K error nl iface ipfamily w link routes Hlink Hlist Hinv.
  assert (Hrun : GetDefaultGatewayByName iface ipfamily w
                 = (Ok (flat_map (spec_gatewaysOf (Link.Index link)) routes), w)).
  { unfold GetDefaultGatewayByName.
    erewrite bind_ok by (rewrite GetRoutesByName_all; apply read_ok, Hlist).
    erewrite bind_ok by (apply read_ok, Hlink).
    unfold ret. rewrite collectGateways_flat. cbn [app]. do 2 f_equal.
    clear Hlist. induction Hinv as [|r routes Hr _ IH]; [reflexivity|].
    cbn [flat_map]. rewrite IH, (gatewaysOf_as_specified _ _ Hr). reflexivity. }
  split; [exact Hrun|].
  intros before shared after_ v -> Hothers Hseg Hgw.
  rewrite Hrun. do 2 f_equal.
  assert (Hquiet : forall l,
             Forall (fun r => Route.LinkIndex r <> Link.Index link
                              /\ segmentOn (Link.Index link) (Route.MultiPath r) = None) l ->
             flat_map (spec_gatewaysOf (Link.Index link)) l = []).
  { intros l Hl. apply flat_map_nil. eapply Forall_impl; [|exact Hl].
    intros r [Hr Hs]. unfold spec_gatewaysOf.
    apply Z.eqb_neq in Hr. rewrite Hr, Hs. reflexivity. }
  apply Forall_app in Hothers as [Hb Ha].
  rewrite flat_map_app. cbn [flat_map].
  rewrite (Hquiet _ Hb), (Hquiet _ Ha). cbn [app]. rewrite app_nil_r.
  assert (Hown : Route.LinkIndex shared <> Link.Index link).
  { apply Forall_app in Hinv as [_ Hinv]. inversion Hinv as [|? ? Hs _]; subst.
    apply Hs. intros Hmp. rewrite Hmp in Hseg. discriminate. }
  unfold spec_gatewaysOf. apply Z.eqb_neq in Hown.
  rewrite Hown, Hseg, Hgw. cbn [andb].
  rewrite IP_String_2001_db8__1. reflexivity.
Qed.

Lemma GetDefaultGatewayByName_as_specified_witness :
  LinkByName "net1" (kernel (Mock.start Mock.sharedDefault6)) = inr Mock.net1
  /\ RouteList None netlink.FAMILY_V6 (kernel (Mock.start Mock.sharedDefault6))
     = inr (Mock.routes Mock.sharedDefault6)
  /\ Forall (segmentsUnbound (Link.Index Mock.net1))
            (Mock.routes Mock.sharedDefault6)
  /\ GetDefaultGatewayByName "net1" netlink.FAMILY_V6
       (Mock.start Mock.sharedDefault6)
     = (Ok ["2001:db8::1"], Mock.start Mock.sharedDefault6).
Proof.
  assert (Hinv : Forall (segmentsUnbound (Link.Index Mock.net1))
                        (Mock.routes Mock.sharedDefault6)).
  { constructor; [|constructor]. intros _. cbn. discriminate. }
  split; [reflexivity|]. split; [reflexivity|]. split; [exact Hinv|].
  refine (proj2 (@GetDefaultGatewayByName_as_specified _ _ Mock.netlinkOf
                   "net1" netlink.FAMILY_V6 (Mock.start Mock.sharedDefault6)
                   Mock.net1 (Mock.routes Mock.sharedDefault6)
                   eq_refl eq_refl Hinv)
                [] _ [] (Mock.hop Mock.net1 Mock.gw6) eq_refl _ eq_refl eq_refl).
  constructor.
Defined.

(** ** The interface of the default route *)

Section DefaultInterface.

Context {K error : Type} {nl : Netlink K error}.

Lemma scanSegments_links filterInterface (k : K) mp defaultInterface :
  scanSegments filterInterface k mp defaultInterface
  = match scanLinks filterInterface k (map NexthopInfo.LinkIndex mp)
                    defaultInterface with
    | (Some e, name) => (Return (Some e), name)
    | (None, name) =>
        if forallb (fun index =>
                      String.eqb (fst (getDefaultRouteIface index filterInterface k)) ""
                      && match snd (getDefaultRouteIface index filterInterface k) with
                         | None => true
                         | Some _ => false
                         end)
                   (map NexthopInfo.LinkIndex mp)
        then (Next, name) else (Return None, name)
    end.
Proof.
  revert defaultInterface. induction mp as [|v mp IH]; intros di; cbn.
  - reflexivity.
  - destruct (getDefaultRouteIface (NexthopInfo.LinkIndex v) filterInterface k)
      as [name [e|]]; cbn.
    + reflexivity.
    + destruct (String.eqb name ""); cbn; [apply IH|reflexivity].
Qed.

(** Walking the whole list without a result leaves the scan where it was. *)
Lemma scanLinks_app filterInterface (k : K) l1 l2 defaultInterface :
  forallb (fun index =>
             String.eqb (fst (getDefaultRouteIface index filterInterface k)) ""
             && match snd (getDefaultRouteIface index filterInterface k) with
                | None => true
                | Some _ => false
                end) l1 = true ->
  scanLinks filterInterface k (l1 ++ l2) defaultInterface
  = scanLinks filterInterface k l2
      (match l1 with [] => defaultInterface | _ => "" end).
Proof.
  revert defaultInterface. induction l1 as [|i l1 IH]; intros di; cbn.
  - reflexivity.
  - destruct (getDefaultRouteIface i filterInterface k) as [name [e|]]; cbn.
    + rewrite andb_false_r. discriminate.
    + destruct (String.eqb_spec name ""); cbn; [|discriminate].
      intros H. rewrite IH by exact H. subst name.
      destruct l1; reflexivity.
Qed.

Lemma scanLinks_stops filterInterface (k : K) l1 l2 defaultInterface :
  forallb (fun index =>
             String.eqb (fst (getDefaultRouteIface index filterInterface k)) ""
             && match snd (getDefaultRouteIface index filterInterface k) with
                | None => true
                | Some _ => false
                end) l1 = false ->
  scanLinks filterInterface k (l1 ++ l2) defaultInterface
  = scanLinks filterInterface k l1 defaultInterface.
Proof.
  revert defaultInterface. induction l1 as [|i l1 IH]; intros di; cbn.
  - discriminate.
  - destruct (getDefaultRouteIface i filterInterface k) as [name [e|]]; cbn.
    + reflexivity.
    + destruct (String.eqb name ""); cbn; [apply IH|reflexivity].
Qed.

(** Starting from an empty name, the two nested loops of the v6 scan walk
    the segments of all routes in one sequence. *)
Lemma scanV6_links filterInterface (k : K) routes :
  scanV6 filterInterface k routes ""
  = scanLinks filterInterface k (candidates netlink.FAMILY_V6 routes) "".
Proof.
  unfold candidates. cbn [Z.eqb netlink.FAMILY_V6 Pos.eqb].
  induction routes as [|route routes IH]; cbn [scanV6 flat_map]; [reflexivity|].
  destruct (Route.MultiPath route) as [|v mp] eqn:E.
  - cbn. exact IH.
  - cbn [List.length Nat.ltb Nat.leb]. rewrite scanSegments_links.
    set (l1 := map NexthopInfo.LinkIndex (v :: mp)).
    destruct (forallb _ l1) eqn:Hall.
    + rewrite (scanLinks_app _ _ _ _ _ Hall).
      rewrite <- (app_nil_r l1) at 1.
      rewrite (scanLinks_app _ _ _ [] _ Hall). cbn [scanLinks].
      subst l1. cbn [map]. exact IH.
    + rewrite (scanLinks_stops _ _ _ _ _ Hall).
      destruct (scanLinks filterInterface k l1 "") as [[e|] name]; reflexivity.
Qed.

Lemma scanV4_links filterInterface (k : K) routes defaultInterface :
  scanV4 filterInterface k routes defaultInterface
  = scanLinks filterInterface k
      (map Route.LinkIndex
           (filter (fun r => (Route.Family r =? netlink.FAMILY_V4)
                             && isDefault (Route.Dst r)) routes))
      defaultInterface.
Proof.
  revert defaultInterface.
  induction routes as [|route routes IH]; intros di; cbn; [reflexivity|].
  destruct ((Route.Family route =? netlink.FAMILY_V4)
            && isDefault (Route.Dst route)); cbn; [|apply IH].
  destruct (getDefaultRouteIface (Route.LinkIndex route) filterInterface k)
    as [name [e|]]; [reflexivity|].
  destruct (String.eqb name ""); cbn; [apply IH|reflexivity].
Qed.

(** What the function comes to once the namespace is entered and the routes
    are listed. *)
Lemma GetDefaultRouteInterface_scan ipfamily filterInterface netns k routes :
  Do netns = inr k ->
  RouteList None ipfamily k = inr routes ->
  GetDefaultRouteInterface ipfamily filterInterface netns
  = (snd (scanLinks filterInterface k (candidates ipfamily routes) ""),
     fst (scanLinks filterInterface k (candidates ipfamily routes) "")).
Proof.
  intros Hdo Hlist. unfold GetDefaultRouteInterface. rewrite Hdo, Hlist.
  unfold candidates. destruct (ipfamily =? netlink.FAMILY_V6) eqn:E.
  - rewrite scanV6_links. unfold candidates. cbn [Z.eqb netlink.FAMILY_V6 Pos.eqb].
    destruct (scanLinks _ _ _ _); reflexivity.
  - rewrite scanV4_links. destruct (scanLinks _ _ _ _); reflexivity.
Qed.






End DefaultInterface.

Example GetDefaultRouteInterface_first :
  GetDefaultRouteInterface netlink.FAMILY_V4 "" (Some Mock.twoDefaults)
  = ("eth0", None).
Proof. vm_compute. reflexivity. Qed.

Example GetDefaultRouteInterface_v6_segments :
  GetDefaultRouteInterface netlink.FAMILY_V6 "eth0" (Some Mock.sharedDefault6)
  = ("net1", None).
Proof. vm_compute. reflexivity. Qed.

Example GetDefaultRouteInterface_none_left :
  GetDefaultRouteInterface netlink.FAMILY_V4 "eth0" (Some Mock.withLinkLocal)
  = ("net1", None)
  /\ GetDefaultRouteInterface netlink.FAMILY_V4 "net1" (Some Mock.withLinkLocal)
     = ("", None).
Proof. split; vm_compute; reflexivity. Qed.



(** ** Moving the routes of an interface *)

Section Moving.

Context {K error : Type} {nl : Netlink K error}.

Lemma splitSegment_first index srcRuleTable dstRuleTable route mp :
  splitSegment index srcRuleTable dstRuleTable route mp
  = match segmentOn index mp with
    | Some v => Some (generatedFrom v dstRuleTable (Route.MTU route),
                      deletedFor v srcRuleTable)
    | None => None
    end.
Proof.
  induction mp as [|v mp IH]; cbn; [reflexivity|].
  destruct (NexthopInfo.LinkIndex v =? index); [reflexivity|exact IH].
Qed.

Lemma moveRoute_other_table link srcRuleTable dstRuleTable route (w : World K) :
  Route.Table route <> srcRuleTable ->
  moveRoute link srcRuleTable dstRuleTable route w = (Ok tt, w).
Proof.
  intros H. unfold moveRoute. apply Z.eqb_neq in H. rewrite H. reflexivity.
Qed.

Lemma moveRoute_linkLocal link srcRuleTable dstRuleTable route (w : World K) :
  net.IPNet_String (Route.Dst route) = "fe80::/64" ->
  moveRoute link srcRuleTable dstRuleTable route w = (Ok tt, w).
Proof.
  intros H. unfold moveRoute. rewrite H.
  destruct (negb (Route.Table route =? srcRuleTable)); reflexivity.
Qed.

Lemma delThenAdd_run d a delFailed addFailed (w : World K) :
  delThenAdd d a delFailed addFailed w
  = match fst (RouteDel d (kernel w)) with
    | Some e => (Fail (delFailed e), after (CRouteDel d) w)
    | None =>
        (match fst (RouteAdd a (kernel (after (CRouteDel d) w))) with
         | Some e => if IsExist e then Ok tt else Fail (addFailed e)
         | None => Ok tt
         end,
         after (CRouteAdd a) (after (CRouteDel d) w))
    end.
Proof.
  unfold delThenAdd, netlink_RouteDel, netlink_RouteAdd.
  erewrite bind_ok by (apply submit_run).
  destruct (fst (RouteDel d (kernel w))) as [e|]; [reflexivity|].
  erewrite bind_ok by (apply submit_run).
  unfold after at 1. cbn [kernel calls].
  destruct (fst (RouteAdd a _)) as [e|]; [|reflexivity].
  destruct (IsExist e); reflexivity.
Qed.

(** The two branches of [moveRoute] that touch the kernel. *)
Lemma moveRoute_own_link link srcRuleTable dstRuleTable route (w : World K) :
  Route.Table route = srcRuleTable ->
  net.IPNet_String (Route.Dst route) <> "fe80::/64" ->
  Route.LinkIndex route = Link.Index link ->
  moveRoute link srcRuleTable dstRuleTable route w
  = delThenAdd route (Route.setTable dstRuleTable route)
               (FailedRouteDelMain route)
               (FailedRouteAddNewTable (Route.setTable dstRuleTable route)) w.
Proof.
  intros Ht Hd Hl. unfold moveRoute, delThenAdd.
  apply Z.eqb_eq in Ht, Hl. apply String.eqb_neq in Hd.
  rewrite Ht, Hd, Hl. reflexivity.
Qed.

Lemma moveRoute_segments link srcRuleTable dstRuleTable route (w : World K) :
  Route.Table route = srcRuleTable ->
  net.IPNet_String (Route.Dst route) <> "fe80::/64" ->
  Route.LinkIndex route <> Link.Index link ->
  moveRoute link srcRuleTable dstRuleTable route w
  = match segmentOn (Link.Index link) (Route.MultiPath route) with
    | None => (Ok tt, w)
    | Some v =>
        delThenAdd (deletedFor v srcRuleTable)
                   (generatedFrom v dstRuleTable (Route.MTU route))
                   (FailedRouteDelIPv6 route) (FailedRouteAddIPv6 route) w
    end.
Proof.
  intros Ht Hd Hl. unfold moveRoute, delThenAdd.
  apply Z.eqb_eq in Ht. apply Z.eqb_neq in Hl. apply String.eqb_neq in Hd.
  rewrite Ht, Hd, Hl. cbn [negb].
  rewrite splitSegment_first.
  destruct (Route.MultiPath route) as [|v mp]; [reflexivity|].
  cbn [List.length Nat.eqb].
  destruct (segmentOn (Link.Index link) (v :: mp)); reflexivity.
Qed.

Lemma moveRoutes_cons link srcRuleTable dstRuleTable route rest (w : World K) :
  moveRoutes link srcRuleTable dstRuleTable (route :: rest) w
  = match moveRoute link srcRuleTable dstRuleTable route w with
    | (Ok _, w') => moveRoutes link srcRuleTable dstRuleTable rest w'
    | (Fail e, w') => (Fail e, w')
    end.
Proof. reflexivity. Qed.

Lemma MoveRouteTable_run iface srcRuleTable dstRuleTable ipfamily
      (w : World K) link routes :
  LinkByName iface (kernel w) = inr link ->
  RouteList None ipfamily (kernel w) = inr routes ->
  MoveRouteTable iface srcRuleTable dstRuleTable ipfamily w
  = moveRoutes link srcRuleTable dstRuleTable routes w.
Proof.
  intros Hlink Hlist. unfold MoveRouteTable.
  erewrite bind_ok by (apply read_ok, Hlink).
  erewrite bind_ok by (apply read_ok, Hlist). reflexivity.
Qed.

End Moving.

(** C1, as the code has it. For a listed route of the source table whose
    destination does not read [fe80::/64], whose own link is not the
    interface's and which carries segments: with no segment on the
    interface the route is passed over; otherwise, from the first such
    segment, the descriptor (the segment's link and gateway, source table)
    is deleted first, a failure ending the call, and then the new route (the
    segment's link and gateway, destination table, the route's MTU) is
    added, the loop going on when the kernel accepts it or answers that it
    exists. *)
Theorem MoveRouteTable_splits_multipath :
  forall (K error : Type) (nl : Netlink K error) (link : Link.t)
         (srcRuleTable dstRuleTable : Z) (route : Route.t)
         (rest : list Route.t) (w : World K),
  Route.Table route = srcRuleTable ->
  net.IPNet_String (Route.Dst route) <> "fe80::/64" ->
  Route.LinkIndex route <> Link.Index link ->
  Route.MultiPath route <> [] ->
  match segmentOn (Link.Index link) (Route.MultiPath route) with
  | None =>
      moveRoutes link srcRuleTable dstRuleTable (route :: rest) w
      = moveRoutes link srcRuleTable dstRuleTable rest w
  | Some v =>
      let deleted := deletedFor v srcRuleTable in
      let generated := generatedFrom v dstRuleTable (Route.MTU route) in
      let w1 := after (CRouteDel deleted) w in
      let w2 := after (CRouteAdd generated) w1 in
      moveRoutes link srcRuleTable dstRuleTable (route :: rest) w
      = match fst (RouteDel deleted (kernel w)) with
        | Some e => (Fail (FailedRouteDelIPv6 route e), w1)
        | None =>
            match fst (RouteAdd generated (kernel w1)) with
            | None => moveRoutes link srcRuleTable dstRuleTable rest w2
            | Some e =>
                if IsExist e
                then moveRoutes link srcRuleTable dstRuleTable rest w2
                else (Fail (FailedRouteAddIPv6 route e), w2)
            end
        end
  end.
Proof.
  intros K error nl link src dst route rest w Ht Hd Hl _.
  rewrite moveRoutes_cons, (moveRoute_segments _ _ _ _ _ Ht Hd Hl).
  destruct (segmentOn (Link.Index link) (Route.MultiPath route)) as [v|];
    [|reflexivity].
  cbv zeta. rewrite delThenAdd_run.
  destruct (fst (RouteDel _ (kernel w))) as [e|]; [reflexivity|].
  destruct (fst (RouteAdd _ _)) as [e|]; [|reflexivity].
  destruct (IsExist e); reflexivity.
Qed.

Lemma MoveRouteTable_splits_multipath_witness :
  moveRoutes Mock.net1 254 100 (Mock.routes Mock.sharedDefault6)
             (Mock.start Mock.sharedDefault6)
  = (Ok tt,
     {| kernel :=
          {| Mock.links := [Mock.eth0; Mock.net1];
             Mock.routes :=
               [Mock.multipath None netlink.FAMILY_V6
                               [Mock.hop Mock.eth0 Mock.gw6'];
                generatedFrom (Mock.hop Mock.net1 Mock.gw6) 100 1500];
             Mock.rules := [] |};
        calls := [CRouteDel (deletedFor (Mock.hop Mock.net1 Mock.gw6) 254);
                  CRouteAdd (generatedFrom (Mock.hop Mock.net1 Mock.gw6)
                                           100 1500)] |}).
Proof.
  refine (@MoveRouteTable_splits_multipath _ _ Mock.netlinkOf Mock.net1 254 100
            (Mock.multipath None netlink.FAMILY_V6
               [Mock.hop Mock.eth0 Mock.gw6'; Mock.hop Mock.net1 Mock.gw6])
            [] (Mock.start Mock.sharedDefault6) eq_refl _ _ _).
  - vm_compute. discriminate.
  - cbn. discriminate.
  - discriminate.
Defined.

(** C1, as stated, fails: a route to [fe80::/64] of the source table, on
    another link and with a segment on the interface, is passed over; no
    descriptor is deleted and no route added. *)
Lemma MoveRouteTable_linkLocal_segments_not_moved :
  RouteList None netlink.FAMILY_V6
            (kernel (Mock.start Mock.withLinkLocalSegments))
  = inr [Mock.linkLocalSegments]
  /\ MoveRouteTable "net1" 254 100 netlink.FAMILY_V6
       (Mock.start Mock.withLinkLocalSegments)
     = (Ok tt, Mock.start Mock.withLinkLocalSegments)
  /\ ~ spec_multipath_moved Mock.net1 254 100 Mock.linkLocalSegments
         (Mock.start Mock.withLinkLocalSegments).
Proof.
  split; [reflexivity|]. split; [vm_compute; reflexivity|].
  intros H.
  destruct (H eq_refl ltac:(cbn; discriminate) ltac:(discriminate)
              (Mock.hop Mock.net1 None) eq_refl) as [more Hmore].
  vm_compute in Hmore. discriminate.
Qed.

(** The specification's scenario: net1 has its default route via 10.1.1.1
    in table 254; after the move the route is in table 100 and the
    link-local route is where it was. *)
Example MoveRouteTable_scenario :
  MoveRouteTable "net1" 254 100 netlink.FAMILY_ALL (Mock.start Mock.withLinkLocal)
  = (Ok tt,
     {| kernel :=
          {| Mock.links := [Mock.eth0; Mock.net1];
             Mock.routes := [Mock.linkLocalOn Mock.net1;
                             Route.setTable 100 (Mock.default4 Mock.net1)];
             Mock.rules := [] |};
        calls := [CRouteDel (Mock.default4 Mock.net1);
                  CRouteAdd (Route.setTable 100 (Mock.default4 Mock.net1))] |}).
Proof. vm_compute. reflexivity. Qed.

(** C7. When none of the listed routes of the source table is on the
    interface, as its own link or as a segment, [MoveRouteTable] submits
    nothing, changes nothing and returns no error; and a listed route of
    another table is passed over with nothing changed. *)
Theorem MoveRouteTable_nothing_to_move :
  forall (K error : Type) (nl : Netlink K error) (iface : string)
         (srcRuleTable dstRuleTable ipfamily : Z) (w : World K)
         (link : Link.t) (routes : list Route.t),
  LinkByName iface (kernel w) = inr link ->
  RouteList None ipfamily (kernel w) = inr routes ->
  (forall r, In r routes -> Route.Table r = srcRuleTable ->
             Route.LinkIndex r <> Link.Index link
             /\ segmentOn (Link.Index link) (Route.MultiPath r) = None) ->
  MoveRouteTable iface srcRuleTable dstRuleTable ipfamily w = (Ok tt, w)
  /\ (forall r w', Route.Table r <> srcRuleTable ->
                   moveRoute link srcRuleTable dstRuleTable r w' = (Ok tt, w')).
Proof.
  intros K error nl iface src dst ipfamily w link routes Hlink Hlist Hnone.
  split; [|intros r w'; apply moveRoute_other_table].
  rewrite (MoveRouteTable_run _ _ _ _ _ _ _ Hlink Hlist).
  clear Hlist. induction routes as [|r routes IH]; [reflexivity|].
  rewrite moveRoutes_cons.
  assert (Hr : moveRoute link src dst r w = (Ok tt, w)).
  { destruct (Z.eq_dec (Route.Table r) src) as [Ht|Ht];
      [|apply moveRoute_other_table, Ht].
    destruct (string_dec (net.IPNet_String (Route.Dst r)) "fe80::/64") as [Hd|Hd];
      [apply moveRoute_linkLocal, Hd|].
    destruct (Hnone r (or_introl eq_refl) Ht) as [Hl Hs].
    rewrite (moveRoute_segments _ _ _ _ _ Ht Hd Hl), Hs. reflexivity. }
  rewrite Hr. apply IH. intros r' Hin. apply Hnone. right. exact Hin.
Qed.

Lemma MoveRouteTable_nothing_to_move_witness :
  MoveRouteTable "eth0" 254 100 netlink.FAMILY_V4 (Mock.start Mock.withLinkLocal)
  = (Ok tt, Mock.start Mock.withLinkLocal).
Proof.
  refine (proj1 (@MoveRouteTable_nothing_to_move _ _ Mock.netlinkOf "eth0"
                   254 100 netlink.FAMILY_V4 (Mock.start Mock.withLinkLocal)
                   Mock.eth0 [Mock.default4 Mock.net1] eq_refl eq_refl _)).
  intros r [<-|[]] _. split; [cbn; discriminate|reflexivity].
Defined.

(** ** Routes to the link-local network stay *)

Section Sparing.

Context {K error : Type} {nl : Netlink K error} {kv : KernelView K}.
Context (laws : RouteLaws nl kv).

Lemma sparesLinkLocal_refl (w : World K) : sparesLinkLocal w w.
Proof.
  split; [auto|]. exists []. rewrite app_nil_r. split; [reflexivity|constructor].
Qed.

Lemma sparesLinkLocal_trans (w1 w2 w3 : World K) :
  sparesLinkLocal w1 w2 -> sparesLinkLocal w2 w3 -> sparesLinkLocal w1 w3.
Proof.
  intros [H12 [s12 [E12 F12]]] [H23 [s23 [E23 F23]]]. split; [auto|].
  exists (s12 ++ s23)%list. split.
  - rewrite E23, E12, app_assoc. reflexivity.
  - apply Forall_app. split; assumption.
Qed.

Lemma RouteAdd_keeps (a r : Route.t) (k : K) :
  In r (routeTable k) -> In r (routeTable (snd (RouteAdd a k))).
Proof.
  intros Hin. destruct (RouteAdd a k) as [[e|] k'] eqn:E; cbn.
  - rewrite (RouteAdd_failed _ _ E). exact Hin.
  - rewrite (RouteAdd_ok _ _ E). apply in_or_app. left. exact Hin.
Qed.

Lemma sparesLinkLocal_del (d : Route.t) (w : World K) :
  net.IPNet_String (Route.Dst d) <> "fe80::/64" ->
  sparesLinkLocal w (after (CRouteDel d) w).
Proof.
  intros Hd. split.
  - intros r Hr Hin. cbn. apply RouteDel_frame; [exact Hin|].
    intros E. rewrite E in Hr. contradiction.
  - exists [CRouteDel d]. split; [reflexivity|].
    constructor; [|constructor]. intros r E. inversion E. subst. exact Hd.
Qed.

Lemma sparesLinkLocal_add (a : Route.t) (w : World K) :
  net.IPNet_String (Route.Dst a) <> "fe80::/64" ->
  sparesLinkLocal w (after (CRouteAdd a) w).
Proof.
  intros Ha. split.
  - intros r _ Hin. cbn. apply RouteAdd_keeps, Hin.
  - exists [CRouteAdd a]. split; [reflexivity|].
    constructor; [|constructor]. intros r E. inversion E. subst. exact Ha.
Qed.

Lemma delThenAdd_spares d a delFailed addFailed (w : World K) :
  net.IPNet_String (Route.Dst d) <> "fe80::/64" ->
  net.IPNet_String (Route.Dst a) <> "fe80::/64" ->
  sparesLinkLocal w (snd (delThenAdd d a delFailed addFailed w)).
Proof.
  intros Hd Ha. rewrite delThenAdd_run.
  destruct (fst (RouteDel d (kernel w))); cbn [snd].
  - apply sparesLinkLocal_del, Hd.
  - eapply sparesLinkLocal_trans;
      [apply sparesLinkLocal_del, Hd|apply sparesLinkLocal_add, Ha].
Qed.

Lemma moveRoute_spares link srcRuleTable dstRuleTable route (w : World K) :
  sparesLinkLocal w (snd (moveRoute link srcRuleTable dstRuleTable route w)).
Proof.
  destruct (Z.eq_dec (Route.Table route) srcRuleTable) as [Ht|Ht];
    [|rewrite (moveRoute_other_table _ _ _ _ _ Ht); apply sparesLinkLocal_refl].
  destruct (string_dec (net.IPNet_String (Route.Dst route)) "fe80::/64")
    as [Hd|Hd];
    [rewrite (moveRoute_linkLocal _ _ _ _ _ Hd); apply sparesLinkLocal_refl|].
  destruct (Z.eq_dec (Route.LinkIndex route) (Link.Index link)) as [Hl|Hl].
  - rewrite (moveRoute_own_link _ _ _ _ _ Ht Hd Hl).
    apply delThenAdd_spares; [exact Hd|exact Hd].
  - rewrite (moveRoute_segments _ _ _ _ _ Ht Hd Hl).
    destruct (segmentOn (Link.Index link) (Route.MultiPath route));
      [|apply sparesLinkLocal_refl].
    apply delThenAdd_spares; cbn; discriminate.
Qed.

Lemma moveRoutes_spares link srcRuleTable dstRuleTable routes (w : World K) :
  sparesLinkLocal w (snd (moveRoutes link srcRuleTable dstRuleTable routes w)).
Proof.
  revert w. induction routes as [|route routes IH]; intros w.
  - apply sparesLinkLocal_refl.
  - rewrite moveRoutes_cons.
    pose proof (moveRoute_spares link srcRuleTable dstRuleTable route w) as H.
    destruct (moveRoute link srcRuleTable dstRuleTable route w) as [[u|e] w'];
      cbn [snd] in *; [|exact H].
    eapply sparesLinkLocal_trans; [exact H|apply IH].
Qed.

Lemma MoveRouteTable_spares iface srcRuleTable dstRuleTable ipfamily (w : World K) :
  sparesLinkLocal w
    (snd (MoveRouteTable iface srcRuleTable dstRuleTable ipfamily w)).
Proof.
  unfold MoveRouteTable.
  destruct (LinkByName iface (kernel w)) as [e|link] eqn:Hlink.
  { erewrite bind_fail by (apply read_fail, Hlink). apply sparesLinkLocal_refl. }
  erewrite bind_ok by (apply read_ok, Hlink).
  destruct (RouteList None ipfamily (kernel w)) as [e|routes] eqn:Hlist.
  { erewrite bind_fail by (apply read_fail, Hlist). apply sparesLinkLocal_refl. }
  erewrite bind_ok by (apply read_ok, Hlist).
  apply moveRoutes_spares.
Qed.

End Sparing.

(** C4. A route whose destination is [fe80::/64] is passed over by the loop
    of [MoveRouteTable], whatever its table and link; no call the function
    submits names a route to [fe80::/64]; and such a route, held by the
    kernel before the call, is held unchanged after it, whether the call
    succeeds or fails. *)
Theorem MoveRouteTable_keeps_linkLocal :
  forall (K error : Type) (nl : Netlink K error) (kv : KernelView K),
  RouteLaws nl kv ->
  forall (iface : string) (srcRuleTable dstRuleTable ipfamily : Z)
         (w : World K) (r : Route.t),
  Route.Dst r = Some linkLocal64 ->
  let w' := snd (MoveRouteTable iface srcRuleTable dstRuleTable ipfamily w) in
  (forall link w0, moveRoute link srcRuleTable dstRuleTable r w0 = (Ok tt, w0))
  /\ (In r (routeTable (kernel w)) -> In r (routeTable (kernel w')))
  /\ (exists submitted,
         calls w' = (calls w ++ submitted)%list
         /\ forall c x, In c submitted -> routeOf c = Some x ->
                        Route.Dst x <> Some linkLocal64).
Proof.
  intros K error nl kv laws iface src dst ipfamily w r Hr w'.
  assert (Htext : net.IPNet_String (Route.Dst r) = "fe80::/64").
  { rewrite Hr. apply IPNet_String_linkLocal64. }
  destruct (MoveRouteTable_spares laws iface src dst ipfamily w)
    as [Hkeep [submitted [Hcalls Hoff]]].
  split; [|split].
  - intros link w0. apply moveRoute_linkLocal, Htext.
  - apply Hkeep, Htext.
  - exists submitted. split; [exact Hcalls|].
    intros c x Hin Hc Hx. rewrite Forall_forall in Hoff.
    apply (Hoff c Hin x Hc). rewrite Hx. apply IPNet_String_linkLocal64.
Qed.

Lemma MoveRouteTable_keeps_linkLocal_witness :
  Route.Dst (Mock.linkLocalOn Mock.net1) = Some linkLocal64
  /\ In (Mock.linkLocalOn Mock.net1)
        (Mock.routes
           (kernel (snd (MoveRouteTable "net1" 254 100 netlink.FAMILY_ALL
                                        (Mock.start Mock.withLinkLocal))))).
Proof.
  split; [reflexivity|].
  refine (proj1 (proj2 (@MoveRouteTable_keeps_linkLocal _ _ Mock.netlinkOf
                          Mock.view Mock_RouteLaws "net1" 254 100
                          netlink.FAMILY_ALL (Mock.start Mock.withLinkLocal)
                          (Mock.linkLocalOn Mock.net1) eq_refl)) _).
  left. reflexivity.
Defined.

(* ================================================================== *)
(** * More of [route.go] *)

(** ** Listing routes and gateways *)

Section Queries.

Context {K error : Type} {nl : Netlink K error}.

Lemma read_world {A} (q : K -> error + A) (w : World K) : snd (read q w) = w.
Proof. unfold read. destruct (q (kernel w)); reflexivity. Qed.

Lemma GetRoutesByName_world iface ipfamily (w : World K) :
  snd (GetRoutesByName iface ipfamily w) = w.
Proof.
  unfold GetRoutesByName, bind.
  destruct (String.eqb iface "").
  - cbn. apply read_world.
  - unfold read, ret. destruct (LinkByName iface (kernel w)); cbn; [reflexivity|].
    destruct (RouteList _ _ _); reflexivity.
Qed.

Lemma gatewaysOf_short index route :
  (List.length (gatewaysOf index route) <= 1)%nat.
Proof.
  unfold gatewaysOf.
  destruct (Route.LinkIndex route =? index).
  - destruct (isDefault _); cbn; lia.
  - destruct (segmentOn _ _); cbn; lia.
Qed.

Lemma GetDefaultGatewayByName_run iface ipfamily (w : World K) link routes :
  LinkByName iface (kernel w) = inr link ->
  RouteList None ipfamily (kernel w) = inr routes ->
  GetDefaultGatewayByName iface ipfamily w
  = (Ok (flat_map (gatewaysOf (Link.Index link)) routes), w).
Proof.
  intros Hlink Hlist. unfold GetDefaultGatewayByName.
  erewrite bind_ok by (rewrite GetRoutesByName_all; apply read_ok, Hlist).
  erewrite bind_ok by (apply read_ok, Hlink).
  unfold ret. rewrite collectGateways_flat. reflexivity.
Qed.

End Queries.

(** X1. [GetRoutesByName] with an empty name never looks a link up: it
    answers with the kernel's list for all links, or the list's error. With
    a name, a failed lookup is returned as it is and nothing is listed; a
    resolved link is the list's filter. The world is left as it was. *)
Theorem GetRoutesByName_cases :
  forall (K error : Type) (nl : Netlink K error)
         (iface : string) (ipfamily : Z) (w : World K),
  let out := GetRoutesByName iface ipfamily w in
  snd out = w
  /\ (iface = "" ->
      fst out = match RouteList None ipfamily (kernel w) with
                | inr routes => Ok routes
                | inl e => Fail (Verbatim e)
                end)
  /\ (iface <> "" ->
      fst out = match LinkByName iface (kernel w) with
                | inl e => Fail (Verbatim e)
                | inr link =>
                    match RouteList (Some link) ipfamily (kernel w) with
                    | inr routes => Ok routes
                    | inl e => Fail (Verbatim e)
                    end
                end).
Proof.
  intros K error nl iface ipfamily w out. subst out.
  split; [apply GetRoutesByName_world|]. split.
  - intros ->. rewrite GetRoutesByName_all. unfold read.
    destruct (RouteList None ipfamily (kernel w)); reflexivity.
  - intros Hname. apply String.eqb_neq in Hname.
    unfold GetRoutesByName, bind, read, ret. rewrite Hname.
    destruct (LinkByName iface (kernel w)); cbn; [reflexivity|].
    destruct (RouteList _ _ _); reflexivity.
Qed.

(** X2. [GetDefaultGatewayByName] lists before it resolves the interface: a
    failed listing is the error returned, also for an interface that does
    not exist; with the routes listed, a failed lookup is the error
    returned. In every case the world is left as it was. *)
Theorem GetDefaultGatewayByName_errors :
  forall (K error : Type) (nl : Netlink K error)
         (iface : string) (ipfamily : Z) (w : World K),
  let out := GetDefaultGatewayByName iface ipfamily w in
  snd out = w
  /\ (forall e, RouteList None ipfamily (kernel w) = inl e ->
                fst out = Fail (Verbatim e))
  /\ (forall routes e,
         RouteList None ipfamily (kernel w) = inr routes ->
         LinkByName iface (kernel w) = inl e ->
         fst out = Fail (Verbatim e)).
Proof.
  intros K error nl iface ipfamily w out. subst out.
  unfold GetDefaultGatewayByName.
  destruct (RouteList None ipfamily (kernel w)) as [e|routes] eqn:Hlist.
  - erewrite bind_fail by (rewrite GetRoutesByName_all; apply read_fail, Hlist).
    repeat split; [intros e' H; inversion H; reflexivity|discriminate].
  - erewrite bind_ok by (rewrite GetRoutesByName_all; apply read_ok, Hlist).
    destruct (LinkByName iface (kernel w)) as [e|link] eqn:Hlink.
    + erewrite bind_fail by (apply read_fail, Hlink).
      repeat split; [discriminate|].
      intros routes' e' _ H. inversion H. reflexivity.
    + erewrite bind_ok by (apply read_ok, Hlink).
      repeat split; discriminate.
Qed.

(** X3. [GetDefaultGatewayByName] returns at most one gateway for each
    listed route. *)
Theorem GetDefaultGatewayByName_at_most_one_per_route :
  forall (K error : Type) (nl : Netlink K error)
         (iface : string) (ipfamily : Z) (w : World K)
         (link : Link.t) (routes : list Route.t),
  LinkByName iface (kernel w) = inr link ->
  RouteList None ipfamily (kernel w) = inr routes ->
  exists gws,
    fst (GetDefaultGatewayByName iface ipfamily w) = Ok gws
    /\ (List.length gws <= List.length routes)%nat.
Proof.
  intros K error nl iface ipfamily w link routes Hlink Hlist.
  rewrite (GetDefaultGatewayByName_run _ _ _ _ _ Hlink Hlist).
  eexists. split; [reflexivity|].
  clear Hlist. induction routes as [|r routes IH]; [cbn; lia|].
  cbn [flat_map List.length]. rewrite length_app.
  pose proof (gatewaysOf_short (Link.Index link) r). lia.
Qed.

Lemma GetDefaultGatewayByName_at_most_one_per_route_witness :
  exists gws,
    fst (GetDefaultGatewayByName "eth0" netlink.FAMILY_V6
           (Mock.start Mock.sharedDefault6)) = Ok gws
    /\ (List.length gws <= 1)%nat.
Proof.
  exact (@GetDefaultGatewayByName_at_most_one_per_route _ _ Mock.netlinkOf
           "eth0" netlink.FAMILY_V6 (Mock.start Mock.sharedDefault6)
           Mock.eth0 (Mock.routes Mock.sharedDefault6) eq_refl eq_refl).
Defined.

(** X4. A default route on the interface's own link always contributes the
    text of its gateway; when it has no gateway, as an on-link default
    route, the text returned for it is "<nil>". *)
Theorem GetDefaultGatewayByName_nil_gateway :
  forall (K error : Type) (nl : Netlink K error)
         (iface : string) (ipfamily : Z) (w : World K)
         (link : Link.t) (routes : list Route.t) (r : Route.t),
  LinkByName iface (kernel w) = inr link ->
  RouteList None ipfamily (kernel w) = inr routes ->
  In r routes ->
  Route.LinkIndex r = Link.Index link ->
  isDefault (Route.Dst r) = true ->
  exists gws,
    fst (GetDefaultGatewayByName iface ipfamily w) = Ok gws
    /\ In (net.IP_String (Route.Gw r)) gws
    /\ (Route.Gw r = None -> In "<nil>" gws).
Proof.
  intros K error nl iface ipfamily w link routes r Hlink Hlist Hin Hidx Hdef.
  rewrite (GetDefaultGatewayByName_run _ _ _ _ _ Hlink Hlist).
  eexists. split; [reflexivity|].
  assert (Hgw : In (net.IP_String (Route.Gw r))
                   (flat_map (gatewaysOf (Link.Index link)) routes)).
  { apply in_flat_map. exists r. split; [exact Hin|].
    unfold gatewaysOf. apply Z.eqb_eq in Hidx. rewrite Hidx, Hdef.
    left. reflexivity. }
  split; [exact Hgw|]. intros Hnil. rewrite Hnil in Hgw. exact Hgw.
Qed.

Lemma GetDefaultGatewayByName_nil_gateway_witness :
  Route.Gw (Mock.onLinkDefault Mock.eth0) = None
  /\ exists gws,
      fst (GetDefaultGatewayByName "eth0" netlink.FAMILY_V4
             (Mock.start Mock.withOnLinkDefault)) = Ok gws
      /\ In "<nil>" gws.
Proof.
  split; [reflexivity|].
  destruct (@GetDefaultGatewayByName_nil_gateway _ _ Mock.netlinkOf
              "eth0" netlink.FAMILY_V4 (Mock.start Mock.withOnLinkDefault)
              Mock.eth0 (Mock.routes Mock.withOnLinkDefault)
              (Mock.onLinkDefault Mock.eth0) eq_refl eq_refl
              (or_introl eq_refl) eq_refl eq_refl) as [gws [Hrun [_ Hnil]]].
  exists gws. split; [exact Hrun|]. apply Hnil. reflexivity.
Defined.

(** ** Adding a route: what is submitted, and when *)

(** X5. [AddRoute] resolves the interface first: when that fails the
    lookup's error is returned as it is, for any family, and the world is
    left as it was. Whatever the arguments, it submits nothing or exactly
    one route add, for a route on the resolved link with the scope,
    destination and table given and with no gateway or one of the two
    gateways given; and it reports success only after submitting. *)
Theorem AddRoute_submits_at_most_one :
  forall (K error : Type) (nl : Netlink K error)
         (ruleTable0 ipFamily scope : Z) (iface : string)
         (dst : option net.IPNet) (v4Gw v6Gw : net.IP) (w : World K),
  let out := AddRoute ruleTable0 ipFamily scope iface dst v4Gw v6Gw w in
  (forall e, LinkByName iface (kernel w) = inl e ->
             out = (Fail (Verbatim e), w))
  /\ (snd out = w
      \/ exists link gw,
          LinkByName iface (kernel w) = inr link
          /\ snd out = after (CRouteAdd (baseRoute link scope dst ruleTable0 gw)) w
          /\ (gw = None \/ gw = v4Gw \/ gw = v6Gw))
  /\ (fst out = Ok tt -> snd out <> w).
Proof.
  intros K error nl t ipFamily scope iface dst v4Gw v6Gw w out. subst out.
  destruct (LinkByName iface (kernel w)) as [e|link] eqn:Hlink.
  { unfold AddRoute. erewrite bind_fail by (apply read_fail, Hlink).
    split; [intros e' H; inversion H; reflexivity|].
    split; [left; reflexivity|discriminate]. }
  split; [discriminate|].
  assert (Hsel : (exists gw,
                     @selectGateway K error ipFamily dst v4Gw v6Gw
                       (baseRoute link scope dst t None) w
                     = (Ok (baseRoute link scope dst t gw), w)
                     /\ (gw = None \/ gw = v4Gw \/ gw = v6Gw))
                 \/ @selectGateway K error ipFamily dst v4Gw v6Gw
                      (baseRoute link scope dst t None) w
                    = (Fail (UnknownIpFamily ipFamily), w)).
  { destruct (Z.eq_dec ipFamily netlink.FAMILY_V4) as [->|H4].
    { left. exists v4Gw. split; [apply selectGateway_V4|auto]. }
    destruct (Z.eq_dec ipFamily netlink.FAMILY_V6) as [->|H6].
    { left. exists v6Gw. split; [apply selectGateway_V6|auto]. }
    destruct (Z.eq_dec ipFamily netlink.FAMILY_ALL) as [->|H0].
    { left. eexists. split; [apply selectGateway_ALL|].
      destruct dst; [destruct (parsesAsIPv4 _)|]; auto. }
    right. apply selectGateway_other; assumption. }
  destruct Hsel as [[gw [Hsel Hgw]]|Hsel].
  - erewrite AddRoute_run; [|exact Hlink|exact Hsel]. cbn [fst snd]. split.
    + right. exists link, gw. auto.
    + intros _ H. apply (f_equal (@calls K)) in H. cbn in H.
      symmetry in H. exact (app_one_neq _ _ H).
  - unfold AddRoute. erewrite bind_ok by (apply read_ok, Hlink).
    erewrite bind_fail by (exact Hsel).
    split; [left; reflexivity|discriminate].
Qed.

(** ** Rules: errors, and adding then deleting by source *)

(** X6. The helpers that add a rule tolerate no error: each submits its one
    rule add and returns the kernel's answer as it is, an "exists" answer
    like any other (where [AddRoute] turns that answer into success). *)
Theorem rule_adds_return_any_error :
  forall (K error : Type) (nl : Netlink K error)
         (net0 : option net.IPNet) (mark ruleTable0 ipFamily : Z)
         (w : World K),
  let verdict (rule : Rule.t) : Res (Error error) unit * World K :=
    (match fst (RuleAdd rule (kernel w)) with
     | Some e => Fail (Verbatim e)
     | None => Ok tt
     end, after (CRuleAdd rule) w) in
  AddToRuleTable net0 ruleTable0 w
  = verdict (Rule.setDst net0 (Rule.setTable ruleTable0 NewRule))
  /\ AddFromRuleTable net0 ruleTable0 w
     = verdict (Rule.setSrc net0 (Rule.setTable ruleTable0 NewRule))
  /\ AddRuleTableWithMark mark ruleTable0 ipFamily w
     = verdict (Rule.setPriority 1000
                  (Rule.setFamily ipFamily
                     (Rule.setTable ruleTable0 (Rule.setMark mark NewRule))))
  /\ (forall e rule,
         fst (RuleAdd rule (kernel w)) = Some e ->
         IsExist e = true ->
         fst (verdict rule) = Fail (Verbatim e)).
Proof.
  intros K error nl net0 mark t ipFamily w verdict. subst verdict.
  unfold AddToRuleTable, AddFromRuleTable, AddRuleTableWithMark,
    netlink_RuleAdd. rewrite !verbatim_run.
  repeat split. intros e rule -> _. reflexivity.
Qed.

(** X7. [DelFromRuleTable] submits the very descriptor [AddFromRuleTable]
    submits for the same source network and table: a fresh rule with just
    these two set. For a source that is not nil and a table that is not 0,
    when the kernel holds no rule with that source and table before a
    successful add, the delete that follows succeeds and the rules held are
    again those from before the add. *)
Theorem AddFromRuleTable_then_DelFromRuleTable :
  forall (K error : Type) (nl : Netlink K error) (kv : KernelView K),
  RuleLaws nl kv ->
  forall (src : option net.IPNet) (ruleTable0 : Z) (w : World K),
  let added := AddFromRuleTable src ruleTable0 w in
  let deleted := DelFromRuleTable src ruleTable0 (snd added) in
  (exists rule,
      calls (snd deleted) = (calls w ++ [CRuleAdd rule; CRuleDel rule])%list
      /\ Rule.Src rule = src
      /\ Rule.Table rule = ruleTable0
      /\ Rule.Dst rule = Rule.Dst NewRule)
  /\ (src <> None ->
      ruleTable0 <> 0 ->
      (forall y, In y (ruleTable (kernel w)) ->
                 ~ (Rule.Src y = src /\ Rule.Table y = ruleTable0)) ->
      fst added = Ok tt ->
      fst deleted = Ok tt
      /\ ruleTable (kernel (snd deleted)) = ruleTable (kernel w)).
Proof.
  intros K error nl kv laws src t w added deleted. subst added deleted.
  unfold AddFromRuleTable, DelFromRuleTable, netlink_RuleAdd, netlink_RuleDel.
  rewrite !verbatim_run. cbn [fst snd kernel calls].
  set (rule := Rule.setSrc src (Rule.setTable t NewRule)). split.
  - exists rule. rewrite <- app_assoc. repeat split.
  - intros Hsrc Ht Hnone.
    destruct (RuleAdd rule (kernel w)) as [[e|] k1] eqn:Ea; cbn [fst snd];
      [discriminate|]. intros _.
    assert (Hsel : forall y, In y (ruleTable (kernel w)) ->
                             ruleMatch rule y = false).
    { intros y Hy. destruct (ruleMatch rule y) eqn:Hm; [|reflexivity].
      destruct (ruleMatch_fields _ _ Hm) as [_ [Hs Htab]].
      destruct (Hnone y Hy). split; [apply Hs, Hsrc|apply Htab, Ht]. }
    destruct (RuleAdd_then_RuleDel K error nl kv laws rule (kernel w) k1
                Ea Hsel) as [k2 [Ed Hback]].
    rewrite Ed. cbn [fst snd]. split; [reflexivity|exact Hback].
Qed.

Lemma AddFromRuleTable_then_DelFromRuleTable_witness :
  fst (AddFromRuleTable (Some Mock.net10) 100 (Mock.start Mock.withRuleTo10))
  = Ok tt
  /\ fst (DelFromRuleTable (Some Mock.net10) 100
            (snd (AddFromRuleTable (Some Mock.net10) 100
                                   (Mock.start Mock.withRuleTo10)))) = Ok tt
  /\ Mock.rules
       (kernel (snd (DelFromRuleTable (Some Mock.net10) 100
                       (snd (AddFromRuleTable (Some Mock.net10) 100
                               (Mock.start Mock.withRuleTo10))))))
     = [Mock.ruleTo10].
Proof.
  split; [reflexivity|].
  apply (proj2 (@AddFromRuleTable_then_DelFromRuleTable _ _ Mock.netlinkOf
                  Mock.view Mock_RuleLaws (Some Mock.net10) 100
                  (Mock.start Mock.withRuleTo10))).
  - discriminate.
  - discriminate.
  - intros y [<-|[]] [Hs _]. discriminate.
  - reflexivity.
Defined.

(** ** Moving routes: failures, order and pairing *)

Section MovingMore.

Context {K error : Type} {nl : Netlink K error}.

Lemma moveRoutes_app link srcRuleTable dstRuleTable before rest (w : World K) :
  moveRoutes link srcRuleTable dstRuleTable (before ++ rest) w
  = match moveRoutes link srcRuleTable dstRuleTable before w with
    | (Ok _, w') => moveRoutes link srcRuleTable dstRuleTable rest w'
    | (Fail e, w') => (Fail e, w')
    end.
Proof.
  revert w. induction before as [|r before IH]; intros w; [reflexivity|].
  cbn [app]. rewrite !moveRoutes_cons.
  destruct (moveRoute link srcRuleTable dstRuleTable r w) as [[u|e] w'];
    [apply IH|reflexivity].
Qed.

(** One turn of the loop: nothing, a delete that failed, or a delete and
    an add that belong together. *)
Lemma moveRoute_step link srcRuleTable dstRuleTable route (w : World K) :
  moveRoute link srcRuleTable dstRuleTable route w = (Ok tt, w)
  \/ exists d a,
      Route.Table d = srcRuleTable /\ Route.Table a = dstRuleTable
      /\ Route.LinkIndex a = Route.LinkIndex d /\ Route.Gw a = Route.Gw d
      /\ Route.Dst a = Route.Dst d
      /\ ((exists e, moveRoute link srcRuleTable dstRuleTable route w
                     = (Fail e, after (CRouteDel d) w))
          \/ snd (moveRoute link srcRuleTable dstRuleTable route w)
             = after (CRouteAdd a) (after (CRouteDel d) w)).
Proof.
  assert (Hrun : forall d a f g,
             (exists e, delThenAdd d a f g w = (Fail e, after (CRouteDel d) w))
             \/ snd (delThenAdd d a f g w)
                = after (CRouteAdd a) (after (CRouteDel d) w)).
  { intros d a f g. rewrite delThenAdd_run.
    destruct (fst (RouteDel d (kernel w))) as [e|]; [left; eauto|right; reflexivity]. }
  destruct (Z.eq_dec (Route.Table route) srcRuleTable) as [Ht|Ht];
    [|left; apply moveRoute_other_table, Ht].
  destruct (string_dec (net.IPNet_String (Route.Dst route)) "fe80::/64")
    as [Hd|Hd]; [left; apply moveRoute_linkLocal, Hd|].
  destruct (Z.eq_dec (Route.LinkIndex route) (Link.Index link)) as [Hl|Hl].
  - right. exists route, (Route.setTable dstRuleTable route).
    rewrite (moveRoute_own_link _ _ _ _ _ Ht Hd Hl).
    repeat split; try reflexivity; [exact Ht|apply Hrun].
  - rewrite (moveRoute_segments _ _ _ _ _ Ht Hd Hl).
    destruct (segmentOn (Link.Index link) (Route.MultiPath route)) as [v|];
      [|left; reflexivity].
    right. exists (deletedFor v srcRuleTable),
             (generatedFrom v dstRuleTable (Route.MTU route)).
    repeat split; try reflexivity. apply Hrun.
Qed.

Lemma moveRoutes_in_pairs link srcRuleTable dstRuleTable routes (w : World K) :
  exists pairs tail,
    calls (snd (moveRoutes link srcRuleTable dstRuleTable routes w))
    = (calls w ++ pairs ++ tail)%list
    /\ movedInPairs srcRuleTable dstRuleTable pairs
    /\ (tail = [] \/ exists d, tail = [CRouteDel d]
                               /\ Route.Table d = srcRuleTable)
    /\ (fst (moveRoutes link srcRuleTable dstRuleTable routes w) = Ok tt ->
        tail = []).
Proof.
  revert w. induction routes as [|route routes IH]; intros w.
  { exists [], []. cbn. rewrite app_nil_r.
    repeat split; [constructor|left; reflexivity]. }
  rewrite moveRoutes_cons.
  destruct (moveRoute_step link srcRuleTable dstRuleTable route w)
    as [Hskip|[d [a [Htd [Hta [Hl [Hg [Hdst Hrun]]]]]]]].
  { rewrite Hskip. apply IH. }
  destruct Hrun as [[e Hfail]|Hboth].
  { rewrite Hfail. exists [], [CRouteDel d]. cbn.
    repeat split; [constructor|right; eauto|discriminate]. }
  destruct (moveRoute link srcRuleTable dstRuleTable route w) as [[u|e] w'];
    cbn [snd] in Hboth; subst w'.
  - destruct (IH (after (CRouteAdd a) (after (CRouteDel d) w)))
      as [pairs [tail [Hcalls [Hpairs [Htail Hok]]]]].
    exists (CRouteDel d :: CRouteAdd a :: pairs), tail.
    split; [|split; [|split]]; try assumption.
    + rewrite Hcalls. cbn [after calls]. rewrite <- !app_assoc. reflexivity.
    + constructor; assumption.
  - exists [CRouteDel d; CRouteAdd a], []. cbn [after calls fst snd].
    split; [|split; [|split]].
    + rewrite <- !app_assoc. reflexivity.
    + constructor; try assumption. constructor.
    + left. reflexivity.
    + discriminate.
Qed.

End MovingMore.

(** X8. [MoveRouteTable] resolves the interface, then lists: a failed lookup
    is returned as it is, whatever the listing would answer, and a failed
    listing is returned as it is; in both cases the world is left as it
    was. *)
Theorem MoveRouteTable_lookup_errors :
  forall (K error : Type) (nl : Netlink K error) (iface : string)
         (srcRuleTable dstRuleTable ipfamily : Z) (w : World K),
  let out := MoveRouteTable iface srcRuleTable dstRuleTable ipfamily w in
  (forall e, LinkByName iface (kernel w) = inl e ->
             out = (Fail (Verbatim e), w))
  /\ (forall link e,
         LinkByName iface (kernel w) = inr link ->
         RouteList None ipfamily (kernel w) = inl e ->
         out = (Fail (Verbatim e), w)).
Proof.
  intros K error nl iface src dst ipfamily w out. subst out.
  unfold MoveRouteTable. split.
  - intros e Hlink. apply bind_fail, read_fail, Hlink.
  - intros link e Hlink Hlist.
    erewrite bind_ok by (apply read_ok, Hlink).
    apply bind_fail, read_fail, Hlist.
Qed.

(** X9. A listed route of the source table on the interface's own link,
    whose destination does not read [fe80::/64], is deleted as listed and
    then added again with only its table changed to the destination table,
    segments and all. A failed delete ends the call with the route still to
    add; an add the kernel accepts or answers with "exists" lets the loop go
    on; any other answer ends the call with the route deleted. *)
Theorem MoveRouteTable_moves_own_link :
  forall (K error : Type) (nl : Netlink K error) (link : Link.t)
         (srcRuleTable dstRuleTable : Z) (route : Route.t)
         (rest : list Route.t) (w : World K),
  Route.Table route = srcRuleTable ->
  net.IPNet_String (Route.Dst route) <> "fe80::/64" ->
  Route.LinkIndex route = Link.Index link ->
  let moved := Route.setTable dstRuleTable route in
  let w1 := after (CRouteDel route) w in
  let w2 := after (CRouteAdd moved) w1 in
  moveRoutes link srcRuleTable dstRuleTable (route :: rest) w
  = match fst (RouteDel route (kernel w)) with
    | Some e => (Fail (FailedRouteDelMain route e), w1)
    | None =>
        match fst (RouteAdd moved (kernel w1)) with
        | None => moveRoutes link srcRuleTable dstRuleTable rest w2
        | Some e =>
            if IsExist e
            then moveRoutes link srcRuleTable dstRuleTable rest w2
            else (Fail (FailedRouteAddNewTable moved e), w2)
        end
    end.
Proof.
  intros K error nl link src dst route rest w Ht Hd Hl. cbv zeta.
  rewrite moveRoutes_cons, (moveRoute_own_link _ _ _ _ _ Ht Hd Hl).
  rewrite delThenAdd_run.
  destruct (fst (RouteDel _ (kernel w))) as [e|]; [reflexivity|].
  destruct (fst (RouteAdd _ _)) as [e|]; [|reflexivity].
  destruct (IsExist e); reflexivity.
Qed.

Lemma MoveRouteTable_moves_own_link_witness :
  moveRoutes Mock.net1 254 100 [Mock.default4 Mock.net1]
             (Mock.start Mock.twoDefaults)
  = (Ok tt,
     {| kernel :=
          {| Mock.links := [Mock.eth0; Mock.net1];
             Mock.routes := [Mock.default4 Mock.eth0;
                             Route.setTable 100 (Mock.default4 Mock.net1)];
             Mock.rules := [] |};
        calls := [CRouteDel (Mock.default4 Mock.net1);
                  CRouteAdd (Route.setTable 100 (Mock.default4 Mock.net1))] |}).
Proof.
  refine (@MoveRouteTable_moves_own_link _ _ Mock.netlinkOf Mock.net1 254 100
            (Mock.default4 Mock.net1) [] (Mock.start Mock.twoDefaults)
            eq_refl _ eq_refl).
  vm_compute. discriminate.
Defined.

(** X10. Whatever the kernel answers, the calls [MoveRouteTable] submits
    are route deletes in the source table, each followed at once by the add,
    in the destination table, of a route with the same link, gateway and
    destination; only a call that fails may end on a delete without its
    add. No rule is touched. *)
Theorem MoveRouteTable_moves_in_pairs :
  forall (K error : Type) (nl : Netlink K error) (iface : string)
         (srcRuleTable dstRuleTable ipfamily : Z) (w : World K),
  let out := MoveRouteTable iface srcRuleTable dstRuleTable ipfamily w in
  exists pairs tail,
    calls (snd out) = (calls w ++ pairs ++ tail)%list
    /\ movedInPairs srcRuleTable dstRuleTable pairs
    /\ (tail = [] \/ exists d, tail = [CRouteDel d]
                               /\ Route.Table d = srcRuleTable)
    /\ (fst out = Ok tt -> tail = []).
Proof.
  intros K error nl iface src dst ipfamily w out. subst out.
  assert (Hnone : forall e,
             exists pairs tail,
               calls w = (calls w ++ pairs ++ tail)%list
               /\ movedInPairs src dst pairs
               /\ (tail = [] \/ exists d, tail = [CRouteDel d]
                                          /\ Route.Table d = src)
               /\ (@fst (Res (Error error) unit) (World K) (Fail e, w) = Ok tt
                   -> tail = [])).
  { intros e. exists [], []. cbn. rewrite app_nil_r.
    repeat split; [constructor|left; reflexivity]. }
  unfold MoveRouteTable.
  destruct (LinkByName iface (kernel w)) as [e|link] eqn:Hlink.
  { erewrite bind_fail by (apply read_fail, Hlink). apply Hnone. }
  erewrite bind_ok by (apply read_ok, Hlink).
  destruct (RouteList None ipfamily (kernel w)) as [e|routes] eqn:Hlist.
  { erewrite bind_fail by (apply read_fail, Hlist). apply Hnone. }
  erewrite bind_ok by (apply read_ok, Hlist).
  apply moveRoutes_in_pairs.
Qed.

(** X11. The loop of [MoveRouteTable] takes the listed routes in order and
    stops at the first failure: the routes listed before it are dealt with,
    the routes listed after it are not looked at, and the world is the one
    the failing turn left. *)
Theorem MoveRouteTable_stops_at_first_failure :
  forall (K error : Type) (nl : Netlink K error) (iface : string)
         (srcRuleTable dstRuleTable ipfamily : Z) (w : World K)
         (link : Link.t) (before rest : list Route.t),
  LinkByName iface (kernel w) = inr link ->
  RouteList None ipfamily (kernel w) = inr (before ++ rest)%list ->
  MoveRouteTable iface srcRuleTable dstRuleTable ipfamily w
  = match moveRoutes link srcRuleTable dstRuleTable before w with
    | (Ok _, w') => moveRoutes link srcRuleTable dstRuleTable rest w'
    | (Fail e, w') => (Fail e, w')
    end.
Proof.
  intros K error nl iface src dst ipfamily w link before rest Hlink Hlist.
  rewrite (MoveRouteTable_run _ _ _ _ _ _ _ Hlink Hlist).
  apply moveRoutes_app.
Qed.

Lemma MoveRouteTable_stops_at_first_failure_witness :
  MoveRouteTable "net1" 254 100 netlink.FAMILY_V4
                 (Mock.start Mock.withSegmentsTo10)
  = (Fail (FailedRouteDelIPv6 Mock.segmentsTo10 Mock.ESRCH),
     {| kernel := Mock.withSegmentsTo10;
        calls := [CRouteDel (deletedFor (Mock.hop Mock.net1 Mock.gw4) 254)] |}).
Proof.
  exact (@MoveRouteTable_stops_at_first_failure _ _ Mock.netlinkOf "net1"
           254 100 netlink.FAMILY_V4 (Mock.start Mock.withSegmentsTo10)
           Mock.net1 [Mock.segmentsTo10] [Mock.to10 Mock.net1]
           eq_refl eq_refl).
Defined.

(** ** The interface of the default route: what comes back *)

Section DefaultInterfaceMore.

Context {K error : Type} {nl : Netlink K error}.

Lemma scanLinks_sound filterInterface (k : K) indices defaultInterface :
  (forall e, fst (scanLinks filterInterface k indices defaultInterface) = Some e ->
             snd (scanLinks filterInterface k indices defaultInterface) = "")
  /\ (fst (scanLinks filterInterface k indices defaultInterface) = None ->
      snd (scanLinks filterInterface k indices defaultInterface) = defaultInterface
      \/ snd (scanLinks filterInterface k indices defaultInterface) = ""
      \/ exists index link,
          In index indices
          /\ LinkByIndex index k = inr link
          /\ Link.Name link
             = snd (scanLinks filterInterface k indices defaultInterface)
          /\ passedOver filterInterface (Link.Name link) = false).
Proof.
  revert defaultInterface.
  induction indices as [|i indices IH]; intros di.
  { cbn. split; [discriminate|auto]. }
  assert (Hrest :
            (forall e, fst (scanLinks filterInterface k indices "") = Some e ->
                       snd (scanLinks filterInterface k indices "") = "")
            /\ (fst (scanLinks filterInterface k indices "") = None ->
                snd (scanLinks filterInterface k indices "") = di
                \/ snd (scanLinks filterInterface k indices "") = ""
                \/ exists index link,
                    In index (i :: indices)
                    /\ LinkByIndex index k = inr link
                    /\ Link.Name link
                       = snd (scanLinks filterInterface k indices "")
                    /\ passedOver filterInterface (Link.Name link) = false)).
  { destruct (IH "") as [He Hn]. split; [exact He|].
    intros H. destruct (Hn H) as [H1|[H1|[index [link [Hin H1]]]]]; auto.
    right. right. exists index, link. split; [right; exact Hin|exact H1]. }
  cbn [scanLinks]. unfold getDefaultRouteIface.
  destruct (LinkByIndex i k) as [e|link] eqn:Hlink.
  { cbn. split; [reflexivity|discriminate]. }
  destruct (negb (String.eqb filterInterface "")
            && String.eqb (Link.Name link) filterInterface) eqn:Hex.
  { cbn. exact Hrest. }
  destruct (String.eqb (Link.Name link) "") eqn:Hempty.
  { apply String.eqb_eq in Hempty. rewrite Hempty. cbn. exact Hrest. }
  cbn. split; [discriminate|]. intros _. right. right.
  exists i, link. split; [left; reflexivity|]. split; [exact Hlink|].
  split; [reflexivity|]. unfold passedOver. rewrite Hex, Hempty. reflexivity.
Qed.

Lemma candidates_V6_none routes :
  Forall (fun r => Route.MultiPath r = []) routes ->
  candidates netlink.FAMILY_V6 routes = [].
Proof.
  unfold candidates. cbn [Z.eqb netlink.FAMILY_V6 Pos.eqb].
  induction 1 as [|r routes Hr _ IH]; cbn; [reflexivity|].
  rewrite Hr, IH. reflexivity.
Qed.

Lemma candidates_other_none ipfamily routes :
  ipfamily <> netlink.FAMILY_V6 ->
  Forall (fun r => Route.Family r <> netlink.FAMILY_V4
                   \/ isDefault (Route.Dst r) = false) routes ->
  candidates ipfamily routes = [].
Proof.
  intros Hfam. unfold candidates. apply Z.eqb_neq in Hfam. rewrite Hfam.
  induction 1 as [|r routes Hr _ IH]; cbn; [reflexivity|].
  replace ((Route.Family r =? netlink.FAMILY_V4) && isDefault (Route.Dst r))
    with false; [exact IH|].
  destruct Hr as [Hr|Hr].
  - apply Z.eqb_neq in Hr. rewrite Hr. reflexivity.
  - rewrite Hr, andb_false_r. reflexivity.
Qed.

End DefaultInterfaceMore.

(** X12. Whenever [GetDefaultRouteInterface] returns an error the name it
    returns is empty; and a name that is not empty comes with a nil error
    and is the name a link index of the listed routes resolves to (a segment
    of a route with segments for v6, the link of a v4 default route
    otherwise). *)
Theorem GetDefaultRouteInterface_sound :
  forall (K error : Type) (nl : Netlink K error)
         (ipfamily : Z) (exclude : string) (netns : NetNS),
  let out := GetDefaultRouteInterface ipfamily exclude netns in
  (forall e, snd out = Some e -> fst out = "")
  /\ (fst out <> "" ->
      snd out = None
      /\ exists k routes index link,
          Do netns = inr k
          /\ RouteList None ipfamily k = inr routes
          /\ In index (candidates ipfamily routes)
          /\ LinkByIndex index k = inr link
          /\ Link.Name link = fst out).
Proof.
  intros K error nl ipfamily exclude netns out. subst out.
  destruct (Do netns) as [e|k] eqn:Hdo.
  { unfold GetDefaultRouteInterface. rewrite Hdo. cbn.
    split; [reflexivity|intros H; destruct (H eq_refl)]. }
  destruct (RouteList None ipfamily k) as [e|routes] eqn:Hlist.
  { unfold GetDefaultRouteInterface. rewrite Hdo, Hlist. cbn.
    split; [reflexivity|intros H; destruct (H eq_refl)]. }
  rewrite (GetDefaultRouteInterface_scan _ _ _ _ _ Hdo Hlist). cbn [fst snd].
  destruct (scanLinks_sound exclude k (candidates ipfamily routes) "")
    as [Herr Hname].
  split; [exact Herr|]. intros Hnot.
  destruct (fst (scanLinks exclude k (candidates ipfamily routes) ""))
    as [e|] eqn:Hfst.
  { destruct (Hnot (Herr e eq_refl)). }
  split; [reflexivity|].
  destruct (Hname eq_refl) as [H|[H|[index [link [Hin [Hlink [Hn _]]]]]]];
    [destruct (Hnot H)|destruct (Hnot H)|].
  exists k, routes, index, link. auto.
Qed.

(** X13. For v6 only the segments of routes are looked at: when no listed
    route carries segments the answer is the empty name and a nil error,
    whatever plain default routes are listed. For any other family only the
    routes of family v4 with a nil or all-zeros destination are looked at:
    when there is none, the answer is the empty name and a nil error. *)
Theorem GetDefaultRouteInterface_blind_spots :
  forall (K error : Type) (nl : Netlink K error)
         (ipfamily : Z) (exclude : string) (netns : NetNS)
         (k : K) (routes : list Route.t),
  Do netns = inr k ->
  RouteList None ipfamily k = inr routes ->
  (ipfamily = netlink.FAMILY_V6 ->
   Forall (fun r => Route.MultiPath r = []) routes ->
   GetDefaultRouteInterface ipfamily exclude netns = ("", None))
  /\ (ipfamily <> netlink.FAMILY_V6 ->
      Forall (fun r => Route.Family r <> netlink.FAMILY_V4
                       \/ isDefault (Route.Dst r) = false) routes ->
      GetDefaultRouteInterface ipfamily exclude netns = ("", None)).
Proof.
  intros K error nl ipfamily exclude netns k routes Hdo Hlist.
  rewrite (GetDefaultRouteInterface_scan _ _ _ _ _ Hdo Hlist). split.
  - intros -> Hall. rewrite (candidates_V6_none _ Hall). reflexivity.
  - intros Hfam Hall. rewrite (candidates_other_none _ _ Hfam Hall). reflexivity.
Qed.

Lemma GetDefaultRouteInterface_blind_spots_witness :
  RouteList None netlink.FAMILY_V6 Mock.plainDefault6
  = inr [Mock.default6 Mock.eth0]
  /\ GetDefaultRouteInterface netlink.FAMILY_V6 "" (Some Mock.plainDefault6)
     = ("", None).
Proof.
  split; [reflexivity|].
  refine (proj1 (@GetDefaultRouteInterface_blind_spots _ _ Mock.netlinkOf
                   netlink.FAMILY_V6 "" (Some Mock.plainDefault6)
                   Mock.plainDefault6 [Mock.default6 Mock.eth0]
                   eq_refl eq_refl) eq_refl _).
  constructor; [reflexivity|constructor].
Defined.

(** ** The network of one address *)

Lemma To4_length (ip : net.IP) (p4 : list byte) :
  net.To4 ip = Some p4 -> List.length p4 = 4%nat.
Proof.
  unfold net.To4. destruct ip as [bs|]; [|discriminate].
  destruct (Nat.eqb (List.length bs) net.IPv4len) eqn:E4.
  - intros H. inversion H. subst. apply Nat.eqb_eq in E4. exact E4.
  - destruct (Nat.eqb (List.length bs) net.IPv6len) eqn:E16; cbn [andb];
      [|discriminate].
    destruct (net.isZeros _ && _ && _); [|discriminate].
    intros H. replace p4 with (skipn 12 bs) by congruence.
    rewrite length_skipn.
    apply Nat.eqb_eq in E16. rewrite E16. reflexivity.
Qed.

Lemma IP_String_four (p4 : list byte) :
  List.length p4 = 4%nat -> net.IP_String (Some p4) = net.text4 p4.
Proof.
  intros H. destruct p4 as [|b l]; [discriminate|].
  unfold net.IP_String, net.To4. rewrite H. reflexivity.
Qed.

Lemma IP_String_To4 (ip : net.IP) (p4 : list byte) :
  net.To4 ip = Some p4 -> net.IP_String ip = net.text4 p4.
Proof.
  intros H. destruct ip as [[|b l]|]; [discriminate|idtac|discriminate].
  unfold net.IP_String. rewrite H. reflexivity.
Qed.

(** X14. [ConvertMaxMaskIPNet] keeps the address and gives it the full
    mask of its family: 32 one bits on 4 bytes for an address that has a
    4-byte form, so that the network reads as the address followed by
    "/32"; 128 one bits on 16 bytes for any other, so that a 16-byte address
    reads as the address followed by "/128". For an address that is neither
    (nil, or of another length) the network it returns reads "<nil>". *)
Theorem ConvertMaxMaskIPNet_full_mask :
  forall (nip : net.IP),
  let n := ConvertMaxMaskIPNet nip in
  net.IP_ n = nip
  /\ (forall p4, net.To4 nip = Some p4 ->
        net.Mask n = Some [xff; xff; xff; xff]
        /\ net.IPNet_String (Some n) = net.IP_String nip ++ "/32")
  /\ (net.To4 nip = None ->
        net.Mask n = Some [xff; xff; xff; xff; xff; xff; xff; xff;
                           xff; xff; xff; xff; xff; xff; xff; xff]
        /\ (net.len nip = 16%nat ->
            net.IPNet_String (Some n) = net.IP_String nip ++ "/128")
        /\ (net.len nip <> 16%nat -> net.IPNet_String (Some n) = "<nil>")).
Proof.
  intros nip n. subst n. split; [reflexivity|]. split.
  - intros p4 H4. unfold ConvertMaxMaskIPNet. rewrite H4. cbn [notNil].
    split; [reflexivity|].
    unfold net.IPNet_String, net.networkNumberAndMask. cbn [net.IP_ net.Mask].
    rewrite H4. change (net.CIDRMask 32 32) with (Some [xff; xff; xff; xff]).
    cbn [List.length Nat.eqb net.IPv4len].
    rewrite (To4_length _ _ H4). cbv beta iota delta [net.IPv4len Nat.eqb].
    change (net.simpleMaskLength [xff; xff; xff; xff]) with (Some 32%nat).
    cbv beta iota.
    rewrite (IP_String_four _ (To4_length _ _ H4)), (IP_String_To4 _ _ H4).
    reflexivity.
  - intros H4. unfold ConvertMaxMaskIPNet. rewrite H4. cbn [notNil].
    split; [reflexivity|].
    unfold net.IPNet_String, net.networkNumberAndMask. cbn [net.IP_ net.Mask].
    rewrite H4.
    change (net.CIDRMask 128 128)
      with (Some [xff; xff; xff; xff; xff; xff; xff; xff;
                  xff; xff; xff; xff; xff; xff; xff; xff]).
    split.
    + intros Hlen. unfold net.IPv6len. rewrite Hlen. cbn [Nat.eqb].
      destruct nip as [bs|]; [|discriminate]. cbn in Hlen.
      cbn [List.length Nat.eqb net.IPv4len]. rewrite Hlen. cbn [Nat.eqb].
      reflexivity.
    + intros Hlen. apply Nat.eqb_neq in Hlen. unfold net.IPv6len.
      rewrite Hlen. reflexivity.
Qed.

(** ** Other tables are left alone *)

#[global] Instance Mock_RouteTableLaws : RouteTableLaws Mock.netlinkOf Mock.view.
Proof.
  constructor; cbn.
  - intros a k r Hin. unfold Mock.routeAdd.
    destruct (existsb _ _); cbn; [exact Hin|].
    apply in_or_app. left. exact Hin.
  - intros d k r Hin Htab. unfold Mock.routeDel.
    assert (Hneq : (Route.Table d =? Route.Table r) = false).
    { apply Z.eqb_neq. congruence. }
    destruct (existsb (Mock.selects d) _); cbn.
    + apply removeFirst_keeps; [assumption|].
      unfold Mock.selects. rewrite Hneq. reflexivity.
    + destruct (existsb (Mock.carries d) _); cbn; [|assumption].
      apply replaceFirst_keeps; [assumption|].
      unfold Mock.carries. rewrite Hneq. reflexivity.
Qed.

Section OtherTables.

Context {K error : Type} {nl : Netlink K error} {kv : KernelView K}.
Context (laws : RouteTableLaws nl kv).

Lemma moveRoute_other_tables link srcRuleTable dstRuleTable route
      (w : World K) (r : Route.t) :
  Route.Table r <> srcRuleTable ->
  In r (routeTable (kernel w)) ->
  In r (routeTable
          (kernel (snd (moveRoute link srcRuleTable dstRuleTable route w)))).
Proof.
  intros Htab Hin.
  destruct (moveRoute_step link srcRuleTable dstRuleTable route w)
    as [Hskip|[d [a [Htd [_ [_ [_ [_ Hrun]]]]]]]].
  { rewrite Hskip. exact Hin. }
  assert (Hdel : In r (routeTable (kernel (after (CRouteDel d) w)))).
  { cbn. apply RouteDel_other_table; [exact Hin|congruence]. }
  destruct Hrun as [[e ->]| ->]; [exact Hdel|].
  cbn. apply RouteAdd_removes_nothing. exact Hdel.
Qed.

Lemma moveRoutes_other_tables link srcRuleTable dstRuleTable routes
      (w : World K) (r : Route.t) :
  Route.Table r <> srcRuleTable ->
  In r (routeTable (kernel w)) ->
  In r (routeTable
          (kernel (snd (moveRoutes link srcRuleTable dstRuleTable routes w)))).
Proof.
  intros Htab. revert w. induction routes as [|route routes IH]; intros w Hin.
  { exact Hin. }
  rewrite moveRoutes_cons.
  pose proof (moveRoute_other_tables link srcRuleTable dstRuleTable route w r
                Htab Hin) as H.
  destruct (moveRoute link srcRuleTable dstRuleTable route w) as [[u|e] w'];
    cbn [snd] in *; [apply IH, H|exact H].
Qed.

End OtherTables.

(** X15. [MoveRouteTable] deletes in the source table only: a route the
    kernel holds in any other table, the destination table included, is
    still held, unchanged, after the call, whether the call succeeds or
    fails. *)
Theorem MoveRouteTable_keeps_other_tables :
  forall (K error : Type) (nl : Netlink K error) (kv : KernelView K),
  RouteTableLaws nl kv ->
  forall (iface : string) (srcRuleTable dstRuleTable ipfamily : Z)
         (w : World K) (r : Route.t),
  Route.Table r <> srcRuleTable ->
  In r (routeTable (kernel w)) ->
  In r (routeTable
          (kernel (snd (MoveRouteTable iface srcRuleTable dstRuleTable
                                       ipfamily w)))).
Proof.
  intros K error nl kv laws iface src dst ipfamily w r Htab Hin.
  unfold MoveRouteTable.
  destruct (LinkByName iface (kernel w)) as [e|link] eqn:Hlink.
  { erewrite bind_fail by (apply read_fail, Hlink). exact Hin. }
  erewrite bind_ok by (apply read_ok, Hlink).
  destruct (RouteList None ipfamily (kernel w)) as [e|routes] eqn:Hlist.
  { erewrite bind_fail by (apply read_fail, Hlist). exact Hin. }
  erewrite bind_ok by (apply read_ok, Hlist).
  apply moveRoutes_other_tables; assumption.
Qed.

Lemma MoveRouteTable_keeps_other_tables_witness :
  Route.Table (Route.setTable 100 (Mock.default4 Mock.eth0)) <> 254
  /\ In (Route.setTable 100 (Mock.default4 Mock.eth0))
        (Mock.routes
           (kernel (snd (MoveRouteTable "net1" 254 100 netlink.FAMILY_V4
                                        (Mock.start Mock.twoTables))))).
Proof.
  split; [cbn; discriminate|].
  refine (@MoveRouteTable_keeps_other_tables _ _ Mock.netlinkOf Mock.view
            Mock_RouteTableLaws "net1" 254 100 netlink.FAMILY_V4
            (Mock.start Mock.twoTables)
            (Route.setTable 100 (Mock.default4 Mock.eth0)) _ _).
  - cbn. discriminate.
  - left. reflexivity.
Defined.
